(** * deepBlue.py: a shallow embedding of the deepBlue client of deepTools

    The development follows [src/deeptools/deepBlue.py]:
    - the module-level helpers [isDeepBlue], [mergeRegions] and [makeTiles];
    - the class [deepBlue]: [__init__] (here [init]), [getEID], [getGenome],
      [getChroms], [chroms], [values], [intervals], [stats] and [preload].

    Python values are modelled with the types the code manipulates: [str] as
    [string], [int] as [Z], [float] as binary64 floats, [None]-able slots as
    [option], [dict] as [gmap], lists as [list].  A call that can raise
    returns an [outcome]; a method that talks to the server or to the bigWig
    writer also returns the trace of what it did. *)

From Stdlib Require OrderedTypeEx.
From Stdlib Require Import PrimFloat Uint63 Ascii String.
From stdpp Require Import gmap strings list fin_maps sorting.

Open Scope string_scope.
Open Scope Z_scope.
Open Scope list_scope.

(** ** Python outcomes *)

(** The [RuntimeError]s of the module, one constructor per [raise] statement
    (the payload is the server message or the caller's argument that the
    message is formatted from). *)
Inductive reason :=
| NoExperiment (sample : string)            (* __init__: "has no associated experiment" *)
| InfoFailed (resp : string)                (* __init__: server.info not okay *)
| NoGenome (sample : string)                (* __init__: no genome *)
| NoChroms (sample : string)                (* __init__: no chromosome names/sizes *)
| SearchFailed (resps : string)             (* getEID: server.search not okay *)
| ChromosomesFailed (resp : string)         (* getChroms: server.chromosomes not okay *)
| InvalidChrom (chrom : string)             (* values, intervals: not a valid chromosome *)
| StartNotLess (start end_ : Z)             (* values, intervals: start >= end *)
| SelectFailed (queryID : string)           (* select_experiments not okay *)
| NoQueryID                                 (* select_experiments gave no query ID *)
| IntersectEmpty                            (* preload: intersection gave no ID *)
| GetRegionsFailed (reqID : string)         (* get_regions not okay *)
| GetDataFailed (resp : string).            (* get_request_data not okay *)

Inductive exn :=
| RuntimeError (r : reason)
| TypeError
| AttributeError
| NameError (name : string)
| UnboundLocalError (name : string)
| IndexError
| KeyError (key : string)
| ValueError
| ZeroDivisionError.

(** What a call does: it returns, it raises, or (for the two [while] loops of
    the module, which have no bound) the model ran out of fuel. *)
Inductive outcome (A : Type) :=
| Returns (a : A)
| Raises (e : exn)
| OutOfFuel.
Arguments Returns {A} a.
Arguments Raises {A} e.
Arguments OutOfFuel {A}.

(** The error kinds of the specification, and the [raise] statement each one
    stands for in this module (every one of them is a [RuntimeError]). *)
Inductive error_kind := NotFound | MetadataError | RemoteError | InvalidArgument.

Definition kind_of (e : exn) : option error_kind :=
  match e with
  | RuntimeError (NoExperiment _) => Some NotFound
  | RuntimeError (NoGenome _) | RuntimeError (NoChroms _) => Some MetadataError
  | RuntimeError (InfoFailed _) | RuntimeError (SearchFailed _)
  | RuntimeError (ChromosomesFailed _) | RuntimeError (SelectFailed _)
  | RuntimeError (GetRegionsFailed _) | RuntimeError (GetDataFailed _) => Some RemoteError
  | RuntimeError (InvalidChrom _) | RuntimeError (StartNotLess _ _) => Some InvalidArgument
  | _ => None
  end.

(** The server message carried by a [RemoteError]. *)
Definition message_of (e : exn) : option string :=
  match e with
  | RuntimeError (InfoFailed m) | RuntimeError (SearchFailed m)
  | RuntimeError (ChromosomesFailed m) | RuntimeError (SelectFailed m)
  | RuntimeError (GetRegionsFailed m) | RuntimeError (GetDataFailed m) => Some m
  | _ => None
  end.

(** Python truthiness of a [str]-or-[None] value: [None] and [""] are false. *)
Definition truthy (v : option string) : bool :=
  match v with
  | Some s => negb (String.eqb s "")
  | None => false
  end.

(** ** mergeRegions *)

(** A region [(chrom, start, end)]. *)
Definition region : Type := string * Z * Z.

(** Tuple comparison [a <= b] of Python: lexicographic, strings by code point. *)
Definition region_leb (a b : region) : bool :=
  let '(c1, s1, e1) := a in
  let '(c2, s2, e2) := b in
  match String.compare c1 c2 with
  | Lt => true
  | Gt => false
  | Eq => if s1 <? s2 then true else if s2 <? s1 then false else e1 <=? e2
  end.

Fixpoint insert_sorted (x : region) (l : list region) : list region :=
  match l with
  | [] => [x]
  | y :: l' => if region_leb x y then x :: y :: l' else y :: insert_sorted x l'
  end.

(** [sorted(regions)]: the order on tuples is total and antisymmetric, so the
    sorted list does not depend on the sorting algorithm. *)
Definition sorted (regions : list region) : list region :=
  foldr insert_sorted [] regions.

(** The three-slot list [last], initially [[None, None, None]]. *)
Record Last := mkLast { last0 : option string; last1 : option Z; last2 : option Z }.

(** The dict [out]: its keys are taken from [last[0]] and its values are lists
    of [[last[1], last[2]]]. *)
Abbreviation RegionDict := (gmap (option string) (list (option Z * option Z))).

(** [if k not in out: out[k] = list()] followed by [out[k].append(v)]. *)
Definition append_entry (k : option string) (v : option Z * option Z)
    (out : RegionDict) : RegionDict :=
  <[k := default [] (out !! k) ++ [v]]> out.

(** One iteration of [for reg in bar]. *)
Definition mergeRegions_step (st : RegionDict * Last) (reg : region)
    : outcome (RegionDict * Last) :=
  let '(out, last) := st in
  let '(c, s, e) := reg in
  let start_le :=
    (* [reg[0] == last[0] and reg[1] <= last[1]]; the comparison is only
       evaluated when the chromosomes are equal *)
    if decide (Some c = last0 last) then
      match last1 last with
      | Some l1 => Returns (s <=? l1)
      | None => Raises TypeError
      end
    else Returns false in
  match start_le with
  | Returns true => Returns (out, mkLast (last0 last) (last1 last) (Some e))
  | Returns false =>
      let out' :=
        if truthy (last0 last)
        then append_entry (last0 last) (last1 last, last2 last) out
        else out in
      Returns (out', mkLast (Some c) (Some s) (Some e))
  | Raises x => Raises x
  | OutOfFuel => OutOfFuel
  end.

Fixpoint mergeRegions_loop (st : RegionDict * Last) (bar : list region)
    : outcome (RegionDict * Last) :=
  match bar with
  | [] => Returns st
  | reg :: bar' =>
      match mergeRegions_step st reg with
      | Returns st' => mergeRegions_loop st' bar'
      | Raises x => Raises x
      | OutOfFuel => OutOfFuel
      end
  end.

Definition mergeRegions (regions : list region) : outcome RegionDict :=
  let bar := sorted regions in
  match mergeRegions_loop (∅, mkLast None None None) bar with
  | Returns (out, last) =>
      Returns (append_entry (last0 last) (last1 last, last2 last) out)
  | Raises x => Raises x
  | OutOfFuel => OutOfFuel
  end.

(** ** makeTiles *)

(** The [while start <= v] loop for one chromosome [(k, v)]; [out] is the list
    being appended to. *)
Fixpoint makeTiles_while (fuel : nat) (k : string) (v binSize distanceBetweenBins : Z)
    (start : Z) (out : list region) : outcome (list region) :=
  if start <=? v then
    match fuel with
    | O => OutOfFuel
    | S fuel' =>
        let end_ := start + binSize in
        let end_ := if end_ >? v then v else end_ in
        makeTiles_while fuel' k v binSize distanceBetweenBins
          (start + (end_ + distanceBetweenBins)) (out ++ [(k, start, end_)])
    end
  else Returns out.

Fixpoint makeTiles_for (fuel : nat) (chromsTuple : list (string * Z))
    (binSize distanceBetweenBins : Z) (out : list region) : outcome (list region) :=
  match chromsTuple with
  | [] => Returns out
  | (k, v) :: rest =>
      match makeTiles_while fuel k v binSize distanceBetweenBins 0 out with
      | Returns out' => makeTiles_for fuel rest binSize distanceBetweenBins out'
      | Raises x => Raises x
      | OutOfFuel => OutOfFuel
      end
  end.

(** [makeTiles(db, args)] with [db.chromsTuple], [args.binSize] and
    [args.distanceBetweenBins]; [fuel] bounds the iterations of each [while]. *)
Definition makeTiles (fuel : nat) (chromsTuple : list (string * Z))
    (binSize distanceBetweenBins : Z) : outcome (list region) :=
  makeTiles_for fuel chromsTuple binSize distanceBetweenBins [].

(** ** The remote server and the traces of a session *)

(** A [(status, payload)] pair of the XML-RPC interface: [status == "okay"]
    with the payload of the call, or any other status with the error string
    the server sends in place of the payload. *)
Inductive response (A : Type) :=
| Okay (payload : A)
| NotOkay (message : string).
Arguments Okay {A} payload.
Arguments NotOkay {A} message.

Module Rpc.
(** The methods of [self.server] the module calls.  A search result is
    [(resp[0], resp[1])], the experiment ID and its name.  [info] is the one
    call whose answer changes while the client waits: its last argument
    counts the earlier [info] calls of the running operation. *)
Record Server := {
  search : string -> string -> string -> response (list (string * string));
  info : option string -> string -> nat -> response (list (gmap string string));
  chromosomes : option string -> string -> response (list (string * Z));
  select_experiments :
    string -> option string -> option Z -> option Z -> string -> response (option string);
  get_regions : string -> string -> string -> response string;
  get_request_data : string -> string -> response string;
  input_regions : option string -> string -> string -> response string;
  intersection : string -> string -> string -> response (option string)
}.
End Rpc.

(** What an operation does besides computing its result. *)
Inductive event :=
| Call (method : string)                      (* a call of [self.server] *)
| Sleep (ms : Z)                              (* [time.sleep(0.1)] is [Sleep 100] *)
| TempFile (fname : string)                   (* NamedTemporaryFile created and closed *)
| BwOpen (fname : string)                     (* [pyBigWig.open(fname, "w")] *)
| BwAddHeader (chroms : option (list (string * Z)))
| BwAddEntries (chrom : string) (start end_ : Z) (value : float)
| BwClose.

(** Trace and outcome of an operation. *)
Definition M (A : Type) : Type := list event * outcome A.

Definition ret {A} (a : A) : M A := ([], Returns a).
Definition raise {A} (e : exn) : M A := ([], Raises e).
Definition emit (ev : event) : M unit := ([ev], Returns tt).
Definition lift {A} (o : outcome A) : M A := ([], o).

Definition bind {A B} (m : M A) (k : A -> M B) : M B :=
  match m with
  | (tr, Returns a) => let '(tr', r) := k a in (tr ++ tr', r)
  | (tr, Raises e) => (tr, Raises e)
  | (tr, OutOfFuel) => (tr, OutOfFuel)
  end.

Global Instance M_ret : MRet M := @ret.
Global Instance M_bind : MBind M := fun A B k m => bind m k.

(** [s.split(sep)] for a one-character separator: never the empty list. *)
Fixpoint split (sep : ascii) (s : string) : list string :=
  match s with
  | EmptyString => [""]
  | String c s' =>
      if Ascii.eqb c sep then "" :: split sep s'
      else match split sep s' with
           | w :: ws => String c w :: ws
           | [] => [String c ""]
           end
  end.

Definition newline : ascii := "010"%char.
Definition tab : ascii := "009"%char.

(** The object itself: the attributes set by [__init__]. *)
Record deepBlue := mkDeepBlue {
  sample : string;
  url : string;
  userKey : string;
  server : Rpc.Server;
  info : option (gmap string string);
  experimentID : option string;
  genome : option string;
  chromsDict : option (gmap string Z);
  chromsTuple : option (list (string * Z))
}.

(** What [chroms] returns: the dict, a length, or [None]. *)
Inductive chroms_result :=
| Dict (d : option (gmap string Z))
| Length (n : Z)
| PyNone.

(** [{k: v for k, v in resp}]: a later pair replaces an earlier one. *)
Definition dict_of (resp : list (string * Z)) : gmap string Z :=
  foldl (fun d kv => <[kv.1 := kv.2]> d) ∅ resp.

(** The writer is open at the end of a trace when its last writer event that
    opens or closes it is a [BwOpen]. *)
Fixpoint writer_open (tr : list event) (open : bool) : bool :=
  match tr with
  | [] => open
  | BwOpen _ :: tr' => writer_open tr' true
  | BwClose :: tr' => writer_open tr' false
  | _ :: tr' => writer_open tr' open
  end.

Definition is_sleep (ev : event) : bool :=
  match ev with Sleep _ => true | _ => false end.

(** The events that open or close the writer. *)
Definition is_toggle (ev : event) : bool :=
  match ev with BwOpen _ | BwClose => true | _ => false end.

(** A trace that leaves the writer as it is. *)
Definition quiet (tr : list event) : Prop :=
  Forall (fun ev => is_toggle ev = false) tr.

Definition is_terminal (request_status : string) : bool :=
  String.eqb request_status "done" || String.eqb request_status "failed".

(** ** Properties the claims are stated with *)

(** Two spans [[s1, e1]] and [[s2, e2]] given in this order are in ascending
    order and do not overlap when the first ends at or before the start of the
    second. *)
Definition before (a b : option Z * option Z) : bool :=
  match a.2, b.1 with
  | Some e1, Some s2 => e1 <=? s2
  | _, _ => false
  end.

(** A list of spans is sorted and pairwise non-overlapping. *)
Fixpoint non_overlapping (l : list (option Z * option Z)) : bool :=
  match l with
  | [] => true
  | a :: l' => forallb (before a) l' && non_overlapping l'
  end.

(** An invariant of the loop of [mergeRegions]: [last[1]] is set whenever
    [last[0]] is, so the comparison of the loop never meets [None]. *)
Definition last_ok (last : Last) : Prop :=
  is_Some (last0 last) -> is_Some (last1 last).

(** The interval [(i0, i1, value)] clipped to the window [[start, end)]
    covers the position [p]. *)
Definition covers (start end_ p : Z) (interval : Z * Z * float) : bool :=
  (Z.max interval.1.1 start <=? p) && (p <? Z.min interval.1.2 end_).

(** The value of the last interval, in input order, whose clipped span covers
    [p]. *)
Definition last_cover (ints : list (Z * Z * float)) (start end_ p : Z) : option float :=
  snd <$> List.find (covers start end_ p) (rev ints).

(** The trace of a wait that needed [k] sleeps: every sleep is followed by one
    more [info] call. *)
Definition wait_trace (k : nat) : list event :=
  Call "info" :: concat (replicate k [Sleep 100; Call "info"]).

(** The state the server reports at the [n]-th [info] call for a request, when
    the answer has one. *)
Definition polled (self : deepBlue) (reqID : string) (n : nat) : option string :=
  match Rpc.info (server self) (Some reqID) (userKey self) n with
  | Okay (d :: _) => d !! "state"
  | _ => None
  end.

(** ** Properties of the helpers beyond the claims *)

(** Tuple order as a relation. *)
Definition region_le (a b : region) : Prop := region_leb a b = true.

(** The span [x] starts before the span [y]. *)
Definition start_lt (x y : option Z * option Z) : Prop :=
  match x.1, y.1 with
  | Some a, Some b => a < b
  | _, _ => False
  end.

(** The spans of [l] are in strictly ascending order of their starts. *)
Definition spans_ascending (l : list (option Z * option Z)) : Prop :=
  StronglySorted start_lt l.

(** What the dict [out] holds while the loop of [mergeRegions] runs over the
    regions [pre]: named chromosomes only, each with spans in ascending order
    of start that are regions of [pre]; the spans of the chromosome [c0]
    start before [s0]. *)
Definition out_ok (pre : list region) (out : RegionDict) (c0 : string) (s0 : Z) : Prop :=
  forall k l, out !! k = Some l ->
    exists c, k = Some c /\ c <> "" /\ spans_ascending l
      /\ forall y, y ∈ l ->
           exists s e, y = (Some s, Some e) /\ (c, s, e) ∈ pre /\ (c = c0 -> s < s0).

(** The region [(c, s, e)] lies inside a span of [out] that starts where it
    starts. *)
Definition covered (out : RegionDict) (c : string) (s e : Z) : Prop :=
  exists l e2, out !! Some c = Some l /\ (Some s, Some e2) ∈ l /\ e <= e2.

(** The state of the loop after the regions [pre], the last of which is [p]. *)
Definition merge_inv (pre : list region) (p : region) (out : RegionDict) (last : Last)
    : Prop :=
  last = mkLast (Some p.1.1) (Some p.1.2) (Some p.2)
  /\ p ∈ pre
  /\ (forall x, x ∈ pre -> region_le x p)
  /\ out_ok pre out p.1.1 p.1.2
  /\ (forall c s e, (c, s, e) ∈ pre -> c <> "" ->
        (c = p.1.1 /\ s = p.1.2 /\ e <= p.2) \/ covered out c s e).

(** The tile [a] ends at or before the start of the tile [b]. *)
Definition tile_before (a b : region) : Prop := a.2 <= b.1.2.

(** No character of [s] is [sep]. *)
Fixpoint free_of (sep : ascii) (s : string) : bool :=
  match s with
  | EmptyString => true
  | String c s' => negb (Ascii.eqb c sep) && free_of sep s'
  end.

(** The record the server writes for three fields: tab-separated. *)
Definition record_of (fields : string * string * string) : string :=
  fields.1.1 +:+ String tab (fields.1.2 +:+ String tab fields.2).

(** The payload the server writes for a list of records: each record is
    followed by a newline. *)
Definition payload_of (rows : list (string * string * string)) : string :=
  foldr (fun row acc => record_of row +:+ String newline acc) "" rows.

(** A field of a record: not cut by a tab or a newline. *)
Definition is_field (s : string) : Prop :=
  free_of tab s = true /\ free_of newline s = true.

(** ** isDeepBlue *)

(** [s.endswith(suffix)]. *)
Fixpoint endswith (s suffix : string) : bool :=
  if String.eqb s suffix then true
  else
    match s with
    | EmptyString => false
    | String _ s' => endswith s' suffix
    end.

Definition isDeepBlue (fname : string) : bool :=
  if endswith fname ".wig" then true
  else if endswith fname ".wiggle" then true
  else if endswith fname ".bedgraph" then true
  else false.

(** ** Concrete servers and built-ins for the examples *)

Definition digit (c : ascii) : option Z :=
  let n := Z.of_N (N_of_ascii c) in
  if (48 <=? n) && (n <=? 57) then Some (n - 48) else None.

Fixpoint digits (s : string) (acc : Z) : option Z :=
  match s with
  | EmptyString => Some acc
  | String c s' =>
      match digit c with
      | Some d => digits s' (10 * acc + d)
      | None => None
      end
  end.

(** [int] on a string of decimal digits. *)
Definition demo_int (s : string) : option Z :=
  match s with
  | EmptyString => None
  | _ => digits s 0
  end.

(** [float] on ["nan"] and on a string of decimal digits that reads as an
    integer below 2^53, which a float holds exactly; the stand-in covers no
    other string. *)
Definition demo_float (s : string) : option float :=
  if String.eqb s "nan" then Some nan
  else
    match demo_int s with
    | Some z => if z <? 2 ^ 53 then Some (of_uint63 (Uint63.of_Z z)) else None
    | None => None
    end.

(** A stand-in for [numpy.average] on a single value. *)
Definition demo_average (vals : list float) (weights : list Z) : option float :=
  match vals, weights with
  | [v], [w] => if w =? 0 then None else Some v
  | _, _ => None
  end.

(** A server that knows the experiments [found], reports [state n] at the
    [n]-th poll and answers the two calls named in its arguments as given. *)
Definition demo_server (found : list (string * string)) (state : nat -> string)
    (select : response (option string)) (data : response string) : Rpc.Server :=
  {| Rpc.search := fun _ _ _ => Okay found;
     Rpc.info := fun _ _ n => Okay [ {[ "genome" := "hg19"; "state" := state n ]} ];
     Rpc.chromosomes := fun _ _ => Okay [("chr1", 1000)];
     Rpc.select_experiments := fun _ _ _ _ _ => select;
     Rpc.get_regions := fun _ _ _ => Okay "r1";
     Rpc.get_request_data := fun _ _ => data;
     Rpc.input_regions := fun _ _ _ => Okay "reg1";
     Rpc.intersection := fun _ _ _ => Okay (Some "i1") |}.

(** A session as [init] leaves it: sample [S] of genome [hg19], which has the
    one chromosome [chr1]. *)
Definition demo_session (srv : Rpc.Server) : deepBlue :=
  mkDeepBlue "S" "http://localhost" "key" srv (Some {[ "genome" := "hg19" ]})
    (Some "e1") (Some "hg19") (Some {[ "chr1" := 1000 ]}) (Some [("chr1", 1000)]).

(** The payload of one record [10 <tab> 20 <tab> 5] and its trailing newline. *)
Definition demo_payload : string :=
  "10" +:+ String tab ("20" +:+ String tab ("5" +:+ String newline "")).

(** Two experiments carry the sample's name. *)
Definition ambiguous_server : Rpc.Server :=
  demo_server [("e1", "S"); ("e2", "S")] (fun _ => "done") (Okay (Some "q1")) (Okay "").

(** No experiment carries the sample's name. *)
Definition unknown_server : Rpc.Server :=
  demo_server [("e7", "T")] (fun _ => "done") (Okay (Some "q1")) (Okay "").

(** The request is reported failed at once, and its data is served all the same. *)
Definition failed_with_data_server : Rpc.Server :=
  demo_server [("e1", "S")] (fun _ => "failed") (Okay (Some "q1")) (Okay demo_payload).

(** The request is running for two polls, then failed, and asking for its data
    is an error. *)
Definition slow_failed_server : Rpc.Server :=
  demo_server [("e1", "S")] (fun n => if (n <? 2)%nat then "running" else "failed")
    (Okay (Some "q1")) (NotOkay "request failed").

(** The selection is refused. *)
Definition select_fails_server : Rpc.Server :=
  demo_server [("e1", "S")] (fun _ => "done") (NotOkay "boom") (Okay "").

(** Everything succeeds and the data is one record with a chromosome. *)
Definition serving_server : Rpc.Server :=
  demo_server [("e1", "S")] (fun _ => "done") (Okay (Some "q1"))
    (Okay ("chr1" +:+ String tab demo_payload)).

(** The request never leaves the running state. *)
Definition stuck_server : Rpc.Server :=
  demo_server [("e1", "S")] (fun _ => "running") (Okay (Some "q1")) (Okay "").

(** The search itself is refused. *)
Definition down_server : Rpc.Server :=
  {| Rpc.search := fun _ _ _ => NotOkay "no such user";
     Rpc.info := Rpc.info serving_server;
     Rpc.chromosomes := Rpc.chromosomes serving_server;
     Rpc.select_experiments := Rpc.select_experiments serving_server;
     Rpc.get_regions := Rpc.get_regions serving_server;
     Rpc.get_request_data := Rpc.get_request_data serving_server;
     Rpc.input_regions := Rpc.input_regions serving_server;
     Rpc.intersection := Rpc.intersection serving_server |}.

(** The metadata of the experiment names no genome. *)
Definition no_genome_server : Rpc.Server :=
  {| Rpc.search := Rpc.search serving_server;
     Rpc.info := fun _ _ _ => Okay [ {[ "name" := "S" ]} ];
     Rpc.chromosomes := Rpc.chromosomes serving_server;
     Rpc.select_experiments := Rpc.select_experiments serving_server;
     Rpc.get_regions := Rpc.get_regions serving_server;
     Rpc.get_request_data := Rpc.get_request_data serving_server;
     Rpc.input_regions := Rpc.input_regions serving_server;
     Rpc.intersection := Rpc.intersection serving_server |}.

(** The request is running for two polls; asking for its state a third time
    is refused. *)
Definition no_info_server : Rpc.Server :=
  {| Rpc.search := Rpc.search serving_server;
     Rpc.info :=
       fun _ _ n =>
         if (n <? 2)%nat then Okay [ {[ "state" := "running" ]} ]
         else NotOkay "unknown request";
     Rpc.chromosomes := Rpc.chromosomes serving_server;
     Rpc.select_experiments := Rpc.select_experiments serving_server;
     Rpc.get_regions := Rpc.get_regions serving_server;
     Rpc.get_request_data := Rpc.get_request_data serving_server;
     Rpc.input_regions := Rpc.input_regions serving_server;
     Rpc.intersection := Rpc.intersection serving_server |}.

(** The upload of the regions is refused. *)
Definition upload_fails_server : Rpc.Server :=
  {| Rpc.search := Rpc.search serving_server;
     Rpc.info := Rpc.info serving_server;
     Rpc.chromosomes := Rpc.chromosomes serving_server;
     Rpc.select_experiments := Rpc.select_experiments serving_server;
     Rpc.get_regions := Rpc.get_regions serving_server;
     Rpc.get_request_data := Rpc.get_request_data serving_server;
     Rpc.input_regions := fun _ _ _ => NotOkay "bad regions";
     Rpc.intersection := Rpc.intersection serving_server |}.

(** The session [init] returns for the sample [S] on [serving_server]. *)
Definition opened_session : deepBlue :=
  mkDeepBlue "S" "http://localhost" "key" serving_server
    (Some {[ "genome" := "hg19"; "state" := "done" ]}) (Some "e1") (Some "hg19")
    (Some (dict_of [("chr1", 1000)])) (Some [("chr1", 1000)]).

Section DeepBlue.

(** The built-ins [int] and [float] on strings ([None] for [ValueError]),
    [numpy.average] ([None] for the [ZeroDivisionError] it raises when the
    weights sum to zero) and the name [tempfile] picks. *)
Variable py_int : string -> option Z.
Variable py_float : string -> option float.
Variable np_average : list float -> list Z -> option float.
Variable tmpname : string.

(** *** Opening a session *)

Definition getEID (self : deepBlue) : M (deepBlue * option string) :=
  emit (Call "search") ;;
  match Rpc.search (server self) (sample self) "experiments" (userKey self) with
  | NotOkay resps => raise (RuntimeError (SearchFailed resps))
  | Okay resps =>
      match List.find (fun resp => String.eqb resp.2 (sample self)) resps with
      | Some resp =>
          ret (mkDeepBlue (sample self) (url self) (userKey self) (server self)
                 (info self) (Some resp.1) (genome self) (chromsDict self)
                 (chromsTuple self),
               Some resp.1)
      | None => ret (self, None)
      end
  end.

Definition getGenome (self : deepBlue) : M (deepBlue * option string) :=
  match info self with
  | None => raise AttributeError
  | Some d =>
      match d !! "genome" with
      | Some g =>
          ret (mkDeepBlue (sample self) (url self) (userKey self) (server self)
                 (info self) (experimentID self) (Some g) (chromsDict self)
                 (chromsTuple self),
               Some g)
      | None => ret (self, genome self)
      end
  end.

Definition getChroms (self : deepBlue) : M (deepBlue * list (string * Z)) :=
  emit (Call "chromosomes") ;;
  match Rpc.chromosomes (server self) (genome self) (userKey self) with
  | NotOkay resp => raise (RuntimeError (ChromosomesFailed resp))
  | Okay resp =>
      ret (mkDeepBlue (sample self) (url self) (userKey self) (server self)
             (info self) (experimentID self) (genome self) (Some (dict_of resp))
             (Some resp),
           resp)
  end.

(** [deepBlue(sample, url, userKey)]; a raise leaves no object behind. *)
Definition init (sample0 url0 userKey0 : string) (srv : Rpc.Server) : M deepBlue :=
  let self := mkDeepBlue sample0 url0 userKey0 srv None None None None None in
  '(self, experimentID0) ← getEID self ;
  if negb (truthy experimentID0) then raise (RuntimeError (NoExperiment sample0)) else
  emit (Call "info") ;;
  match Rpc.info srv (experimentID self) userKey0 0 with
  | NotOkay resp => raise (RuntimeError (InfoFailed resp))
  | Okay [] => raise IndexError
  | Okay (resp0 :: _) =>
      let self := mkDeepBlue (sample self) (url self) (userKey self) (server self)
                    (Some resp0) (experimentID self) (genome self) (chromsDict self)
                    (chromsTuple self) in
      '(self, genome0) ← getGenome self ;
      if negb (truthy genome0) then raise (RuntimeError (NoGenome sample0)) else
      '(self, chroms0) ← getChroms self ;
      match chroms0 with
      | [] => raise (RuntimeError (NoChroms sample0))
      | _ :: _ => ret self
      end
  end.

(** *** chroms *)

Definition chroms (self : deepBlue) (chrom : option string) : outcome chroms_result :=
  match chrom with
  | None => Returns (Dict (chromsDict self))
  | Some c =>
      match chromsDict self with
      | None => Raises TypeError
      | Some d =>
          match d !! c with
          | Some n => Returns (Length n)
          | None => Returns PyNone
          end
      end
  end.

(** *** intervals *)

(** [(status, info) = self.server.info(reqID, self.userKey)] followed by
    [request_status = info[0]["state"]]; the status is not looked at, so a
    not-okay answer is indexed as the string it is. *)
Definition poll (self : deepBlue) (reqID : string) (n : nat) : M string :=
  emit (Call "info") ;;
  match Rpc.info (server self) (Some reqID) (userKey self) n with
  | Okay [] => raise IndexError
  | Okay (d :: _) =>
      match d !! "state" with
      | Some request_status => ret request_status
      | None => raise (KeyError "state")
      end
  | NotOkay message =>
      if String.eqb message "" then raise IndexError else raise TypeError
  end.

(** [while request_status != "done" and request_status != "failed"]. *)
Fixpoint wait_while (fuel : nat) (self : deepBlue) (reqID : string) (n : nat)
    (request_status : string) : M string :=
  if is_terminal request_status then ret request_status
  else
    match fuel with
    | O => lift OutOfFuel
    | S fuel' =>
        emit (Sleep 100) ;;
        request_status ← poll self reqID n ;
        wait_while fuel' self reqID (S n) request_status
    end.

(** "Wait for the server to process the data"; returns the state the loop
    ended on. *)
Definition wait (fuel : nat) (self : deepBlue) (reqID : string) : M string :=
  request_status ← poll self reqID 0%nat ;
  wait_while fuel self reqID 1%nat request_status.

(** [for intervals in resp.split("\n")] of [intervals]. *)
Fixpoint parse_intervals (records : list string) (o : list (Z * Z * float))
    : outcome (list (Z * Z * float)) :=
  match records with
  | [] => Returns o
  | record :: rest =>
      match split tab record with
      | [] => Raises IndexError
      | f0 :: fs =>
          if String.eqb f0 "" then parse_intervals rest o
          else
            match py_int f0, fs with
            | None, _ => Raises ValueError
            | Some _, [] => Raises IndexError
            | Some a, f1 :: fs' =>
                match py_int f1, fs' with
                | None, _ => Raises ValueError
                | Some _, [] => Raises IndexError
                | Some b, f2 :: _ =>
                    match py_float f2 with
                    | None => Raises ValueError
                    | Some v => parse_intervals rest (o ++ [(a, b, v)])
                    end
                end
            end
      end
  end.

(** The two argument checks shared by [values] and [intervals]; returns the
    [end] to use. *)
Definition check_region (self : deepBlue) (chrom : string) (start end_ : Z)
    : outcome Z :=
  match chroms self None with
  | Returns (Dict (Some d)) =>
      match d !! chrom with
      | None => Raises (RuntimeError (InvalidChrom chrom))
      | Some len =>
          let end_ := if end_ =? 0 then len else end_ in
          if start >=? end_ then Raises (RuntimeError (StartNotLess start end_))
          else Returns end_
      end
  | Returns _ => Raises TypeError
  | Raises e => Raises e
  | OutOfFuel => OutOfFuel
  end.

Definition intervals (fuel : nat) (self : deepBlue) (chrom : string) (start end_ : Z)
    : M (list (Z * Z * float)) :=
  end_ ← lift (check_region self chrom start end_) ;
  emit (Call "select_experiments") ;;
  match Rpc.select_experiments (server self) (sample self) (Some chrom) (Some start)
          (Some end_) (userKey self) with
  | NotOkay queryID => raise (RuntimeError (SelectFailed queryID))
  | Okay queryID =>
      if negb (truthy queryID) then raise (RuntimeError NoQueryID) else
      emit (Call "get_regions") ;;
      match Rpc.get_regions (server self) (default "" queryID) "START,END,VALUE"
              (userKey self) with
      | NotOkay reqID => raise (RuntimeError (GetRegionsFailed reqID))
      | Okay reqID =>
          wait fuel self reqID ;;
          emit (Call "get_request_data") ;;
          match Rpc.get_request_data (server self) reqID (userKey self) with
          | NotOkay resp => raise (RuntimeError (GetDataFailed resp))
          | Okay resp => lift (parse_intervals (split newline resp) [])
          end
      end
  end.

(** *** values *)

(** [o[s:e] = x] for [0 <= s < e <= len(o)], the only slices [values]
    assigns to. *)
Definition set_slice (o : list float) (s e : Z) (x : float) : list float :=
  take (Z.to_nat s) o ++ replicate (Z.to_nat (e - s)) x ++ drop (Z.to_nat e) o.

(** The body of [for interval in intervals]. *)
Definition values_step (start end_ : Z) (o : list float) (interval : Z * Z * float)
    : list float :=
  let '(i0, i1, x) := interval in
  let s := i0 - start in
  let e := s + i1 - i0 in
  let s := if s <? 0 then 0 else s in
  let e := if e >=? end_ - start then end_ - start else e in
  if e >? s then set_slice o s e x else o.

(** "Generate the output": [np.empty(end - start)] filled with [nan], then
    the loop. *)
Definition values_fill (ints : list (Z * Z * float)) (start end_ : Z) : list float :=
  foldl (values_step start end_) (replicate (Z.to_nat (end_ - start)) nan) ints.

Definition values (fuel : nat) (self : deepBlue) (chrom : string) (start end_ : Z)
    : M (list float) :=
  end_ ← lift (check_region self chrom start end_) ;
  ints ← intervals fuel self chrom start end_ ;
  ret (values_fill ints start end_).

(** *** stats *)

(** [np.isnan] of an [int] of the array: never true. *)
Definition isnan_int (_ : Z) : bool := false.

(** [np.all(np.isnan(ints))]: [ints] is a list of [(int, int, float)] tuples,
    which numpy turns into an array with three columns. *)
Definition np_all_isnan (ints : list (Z * Z * float)) : bool :=
  forallb (fun x => isnan_int x.1.1 && isnan_int x.1.2 && is_nan x.2) ints.

(** The body of [for x in ints]: the weight appended for [x]. *)
Definition stats_weight (start end_ : Z) (x : Z * Z * float) : Z :=
  let s := x.1.1 in
  let e := x.1.2 in
  let s := if (start >? 0) && (s <? start) then start else s in
  let e := if (end_ >? 0) && (e >? end_) then end_ else e in
  e - s.

(** [stats] from the line after [ints = self.intervals(...)]. *)
Definition stats_of (ints : list (Z * Z * float)) (start end_ : Z)
    : outcome (option (list float)) :=
  if (length ints =? 0)%nat || np_all_isnan ints then Returns None
  else
    let vals := map (fun x => x.2) ints in
    let weights := map (stats_weight start end_) ints in
    match np_average vals weights with
    | Some rv => Returns (Some [rv])
    | None => Raises ZeroDivisionError
    end.

Definition stats (fuel : nat) (self : deepBlue) (chrom : string) (start end_ : Z)
    : M (option (list float)) :=
  ints ← intervals fuel self chrom start end_ ;
  lift (stats_of ints start end_).

(** *** preload *)

(** "Make a string out of everything in a resonable order":
    [for k, v in self.chromsTuple.items()].  [chromsTuple] is the list built
    by [getChroms] (or still [None]); neither has an attribute [items], so
    the loop header raises before its body runs. *)
Definition preload_regionsStr (self : deepBlue) (regions2 : RegionDict) : M string :=
  match chromsTuple self with
  | Some _ => raise AttributeError
  | None => raise AttributeError
  end.

(** [for intervals in resp.split("\n")] of [preload]. *)
Fixpoint add_entries (records : list string) : M unit :=
  match records with
  | [] => ret tt
  | record :: rest =>
      match split tab record with
      | [] => raise IndexError
      | f0 :: fs =>
          if String.eqb f0 "" then add_entries rest
          else
            match fs with
            | [] => raise IndexError
            | f1 :: fs' =>
                match py_int f1, fs' with
                | None, _ => raise ValueError
                | Some _, [] => raise IndexError
                | Some a, f2 :: fs'' =>
                    match py_int f2, fs'' with
                    | None, _ => raise ValueError
                    | Some _, [] => raise IndexError
                    | Some b, f3 :: _ =>
                        match py_float f3 with
                        | None => raise ValueError
                        | Some v =>
                            emit (BwAddEntries f0 a b v) ;;
                            add_entries rest
                        end
                    end
                end
            end
      end
  end.

(** [preload] from "Send the regions" to its [return], as a function of the
    [regionsStr] built before.  The names [resp] and [intersectionID] that
    two of the error messages are formatted from are not bound where they
    are used. *)
Definition preload_send (fuel : nat) (self : deepBlue) (regionsStr : string)
    : M string :=
  emit (Call "input_regions") ;;
  match Rpc.input_regions (server self) (genome self) regionsStr (userKey self) with
  | NotOkay _ => raise (UnboundLocalError "resp")
  | Okay regionsID =>
      emit (TempFile tmpname) ;;
      let fname := tmpname in
      emit (BwOpen fname) ;;
      emit (BwAddHeader (chromsTuple self)) ;;
      emit (Call "select_experiments") ;;
      match Rpc.select_experiments (server self) (sample self) None None None
              (userKey self) with
      | NotOkay queryID => raise (RuntimeError (SelectFailed queryID))
      | Okay queryID =>
          if negb (truthy queryID) then raise (RuntimeError NoQueryID) else
          emit (Call "intersection") ;;
          match Rpc.intersection (server self) (default "" queryID) regionsID
                  (userKey self) with
          | NotOkay _ => raise (NameError "intersectionID")
          | Okay intersectID =>
              if negb (truthy intersectID) then raise (RuntimeError IntersectEmpty) else
              emit (Call "get_regions") ;;
              match Rpc.get_regions (server self) (default "" intersectID)
                      "CHROM,START,END,VALUE" (userKey self) with
              | NotOkay reqID => raise (RuntimeError (GetRegionsFailed reqID))
              | Okay reqID =>
                  wait fuel self reqID ;;
                  emit (Call "get_request_data") ;;
                  match Rpc.get_request_data (server self) reqID (userKey self) with
                  | NotOkay resp => raise (RuntimeError (GetDataFailed resp))
                  | Okay resp =>
                      add_entries (split newline resp) ;;
                      emit BwClose ;;
                      ret fname
                  end
              end
          end
      end
  end.

Definition preload (fuel : nat) (self : deepBlue) (regions : list region) : M string :=
  regions2 ← lift (mergeRegions regions) ;
  regionsStr ← preload_regionsStr self regions2 ;
  preload_send fuel self regionsStr.

(** *** Reading a payload *)

(** What [row] says of a record of the payload: its three fields and the
    numbers [int] and [float] read in them. *)
Definition reads (row : string * string * string * (Z * Z * float)) : Prop :=
  let '(a, b, v, (x, y, z)) := row in
  a <> "" /\ is_field a /\ is_field b /\ is_field v
  /\ py_int a = Some x /\ py_int b = Some y /\ py_float v = Some z.

(** ** mergeRegions: theorems *)

Lemma mergeRegions_step_returns out last reg :
  last_ok last ->
  exists out' last', mergeRegions_step (out, last) reg = Returns (out', last')
                     /\ last_ok last'.
Proof.
  intros Hok. destruct reg as [[c s] e]. unfold mergeRegions_step.
  destruct (decide (Some c = last0 last)) as [Heq | Hne].
  - destruct Hok as [l1 Hl1]; [rewrite <- Heq; eauto |].
    rewrite Hl1. destruct (s <=? l1); eexists _, _; split; try reflexivity.
    + intros _. cbn. eauto.
    + intros _. cbn. eauto.
  - eexists _, _; split; [reflexivity |]. intros _. cbn. eauto.
Qed.

Lemma mergeRegions_loop_returns bar : forall out last,
  last_ok last ->
  exists out' last', mergeRegions_loop (out, last) bar = Returns (out', last').
Proof.
  induction bar as [| reg bar IH]; intros out last Hok; cbn [mergeRegions_loop].
  - eauto.
  - destruct (mergeRegions_step_returns out last reg Hok) as (out' & last' & -> & Hok').
    apply IH, Hok'.
Qed.

Lemma mergeRegions_returns regions : exists out, mergeRegions regions = Returns out.
Proof.
  unfold mergeRegions.
  destruct (mergeRegions_loop_returns (sorted regions) ∅ (mkLast None None None))
    as (out & last & ->).
  - intros [x Hx]. discriminate.
  - eauto.
Qed.

(** With the same chromosome open, a region that starts after the open
    interval's start is never merged into it, even when it starts before the
    open interval's end: the test reads [last[1]], the start. *)
Lemma mergeRegions_step_compares_start out c l1 l2 s e :
  l1 < s -> c <> "" ->
  mergeRegions_step (out, mkLast (Some c) (Some l1) (Some l2)) (c, s, e)
  = Returns (append_entry (Some c) (Some l1, Some l2) out,
             mkLast (Some c) (Some s) (Some e)).
Proof.
  intros Hlt Hc. unfold mergeRegions_step. cbn [last0 last1 last2].
  rewrite decide_True by reflexivity.
  replace (s <=? l1) with false by (symmetry; apply Z.leb_gt; lia).
  unfold truthy. destruct (String.eqb_spec c ""); [contradiction | reflexivity].
Qed.

(** C1.  mergeRegions on [("chr1",0,100), ("chr1",50,150)]: the second
    region starts before the end of the first, yet the code keeps the two
    regions apart instead of producing the single region ("chr1",0,150). *)
Theorem mergeRegions_overlap_not_merged :
  mergeRegions [("chr1", 0, 100); ("chr1", 50, 150)]
  = Returns {[ Some "chr1" := [(Some 0, Some 100); (Some 50, Some 150)] ]}.
Proof. vm_compute. reflexivity. Qed.

(** C2.  The list mergeRegions returns for a chromosome can hold overlapping
    spans: for [("chr2",10,30), ("chr2",20,40)] it is [[10,30], [20,40]],
    which is not pairwise non-overlapping. *)
Theorem mergeRegions_output_overlaps :
  exists out l,
    mergeRegions [("chr2", 10, 30); ("chr2", 20, 40)] = Returns out
    /\ out !! Some "chr2" = Some l
    /\ l = [(Some 10, Some 30); (Some 20, Some 40)]
    /\ non_overlapping l = false.
Proof.
  eexists _, _. split; [vm_compute; reflexivity |].
  split; [vm_compute; reflexivity |]. split; reflexivity.
Qed.

(** C5 (amended).  mergeRegions never fails, whatever the sequence of
    regions; applied to the empty sequence it returns a mapping that has no
    entry under any chromosome name. *)
Theorem mergeRegions_never_raises :
  (forall regions, exists out, mergeRegions regions = Returns out)
  /\ (exists out, mergeRegions [] = Returns out
                  /\ forall c : string, out !! Some c = None).
Proof.
  split.
  - apply mergeRegions_returns.
  - eexists. split; [reflexivity |].
    intros c. cbn. unfold append_entry. cbn.
    rewrite lookup_insert_ne by discriminate. apply lookup_empty.
Qed.

(** ** makeTiles: theorems *)

(** One iteration of the [while]: the next start is the old start plus the
    END of the window just emitted plus the gap. *)
Lemma makeTiles_while_step fuel k v binSize gap start out :
  start <= v ->
  makeTiles_while (S fuel) k v binSize gap start out
  = makeTiles_while fuel k v binSize gap
      (start + (Z.min (start + binSize) v + gap))
      (out ++ [(k, start, Z.min (start + binSize) v)]).
Proof.
  intros Hle. cbn [makeTiles_while].
  replace (start <=? v) with true by (symmetry; apply Z.leb_le; lia).
  destruct (Z.gtb_spec (start + binSize) v).
  - rewrite Z.min_r by lia. reflexivity.
  - rewrite Z.min_l by lia. reflexivity.
Qed.

(** C3.  makeTiles with binSize=1000 and gap=0 over one chromosome of length
    2500 stops after two tiles: the second advance adds the window's end
    (2000) to the start (1000), so [2000,2500) is never emitted. *)
Theorem makeTiles_2500_two_tiles fuel :
  makeTiles (3 + fuel) [("chr1", 2500)] 1000 0
  = Returns [("chr1", 0, 1000); ("chr1", 1000, 2000)].
Proof. reflexivity. Qed.

(** ** values: theorems *)

Lemma set_slice_length o s e x :
  0 <= s < e -> (Z.to_nat e <= length o)%nat ->
  length (set_slice o s e x) = length o.
Proof.
  intros Hse Hlen. unfold set_slice.
  rewrite !length_app, length_take, length_replicate, length_drop. lia.
Qed.

Lemma set_slice_lookup o s e x (j : nat) :
  0 <= s < e -> (Z.to_nat e <= length o)%nat ->
  set_slice o s e x !! j
  = if decide (Z.to_nat s <= j < Z.to_nat e)%nat then Some x else o !! j.
Proof.
  intros Hse Hlen. unfold set_slice.
  assert (Htake : length (take (Z.to_nat s) o) = Z.to_nat s)
    by (rewrite length_take; lia).
  destruct (decide (j < Z.to_nat s)%nat) as [Hlt | Hge].
  - rewrite lookup_app_l by lia. rewrite lookup_take_lt by lia.
    rewrite decide_False by lia. reflexivity.
  - rewrite lookup_app_r by lia. rewrite Htake.
    destruct (decide (j < Z.to_nat e)%nat) as [Hlt' | Hge'].
    + rewrite lookup_app_l by (rewrite length_replicate; lia).
      rewrite lookup_replicate_2 by lia.
      rewrite decide_True by lia. reflexivity.
    + rewrite lookup_app_r by (rewrite length_replicate; lia).
      rewrite length_replicate, lookup_drop.
      rewrite decide_False by lia. f_equal. lia.
Qed.

(** The clipped bounds computed by the loop body, relative to [start]. *)
Lemma values_step_unfold start end_ o i0 i1 x :
  values_step start end_ o (i0, i1, x)
  = if Z.min (i1 - start) (end_ - start) >? Z.max (i0 - start) 0
    then set_slice o (Z.max (i0 - start) 0) (Z.min (i1 - start) (end_ - start)) x
    else o.
Proof.
  unfold values_step.
  replace (i0 - start + i1 - i0) with (i1 - start) by lia.
  destruct (Z.ltb_spec (i0 - start) 0); destruct (Z.geb_spec (i1 - start) (end_ - start)).
  - rewrite Z.max_r, Z.min_r by lia. reflexivity.
  - rewrite Z.max_r, Z.min_l by lia. reflexivity.
  - rewrite Z.max_l, Z.min_r by lia. reflexivity.
  - rewrite Z.max_l, Z.min_l by lia. reflexivity.
Qed.

Lemma values_step_length start end_ o interval :
  length o = Z.to_nat (end_ - start) ->
  length (values_step start end_ o interval) = length o.
Proof.
  intros Hlen. destruct interval as [[i0 i1] x]. rewrite values_step_unfold.
  destruct (Z.gtb_spec (Z.min (i1 - start) (end_ - start)) (Z.max (i0 - start) 0));
    [| reflexivity].
  apply set_slice_length; lia.
Qed.

Lemma values_step_lookup start end_ o interval i :
  length o = Z.to_nat (end_ - start) -> 0 <= i < end_ - start ->
  values_step start end_ o interval !! Z.to_nat i
  = if covers start end_ (start + i) interval then Some interval.2
    else o !! Z.to_nat i.
Proof.
  intros Hlen Hi. destruct interval as [[i0 i1] x]. rewrite values_step_unfold.
  unfold covers. cbn [fst snd].
  destruct (Z.gtb_spec (Z.min (i1 - start) (end_ - start)) (Z.max (i0 - start) 0)).
  - rewrite set_slice_lookup by lia.
    destruct (Z.leb_spec (Z.max i0 start) (start + i));
      destruct (Z.ltb_spec (start + i) (Z.min i1 end_)); cbn [andb].
    + rewrite decide_True by lia. reflexivity.
    + rewrite decide_False by lia. reflexivity.
    + rewrite decide_False by lia. reflexivity.
    + rewrite decide_False by lia. reflexivity.
  - destruct (Z.leb_spec (Z.max i0 start) (start + i));
      destruct (Z.ltb_spec (start + i) (Z.min i1 end_)); cbn [andb];
      try reflexivity; lia.
Qed.

(** An interval whose clipped span is empty leaves the array as it is. *)
Lemma values_step_skip start end_ o interval :
  Z.min interval.1.2 end_ <= Z.max interval.1.1 start ->
  values_step start end_ o interval = o.
Proof.
  destruct interval as [[i0 i1] x]. cbn [fst snd]. intros Hempty.
  rewrite values_step_unfold.
  destruct (Z.gtb_spec (Z.min (i1 - start) (end_ - start)) (Z.max (i0 - start) 0));
    [lia | reflexivity].
Qed.

Lemma values_fill_length ints start end_ :
  length (values_fill ints start end_) = Z.to_nat (end_ - start).
Proof.
  unfold values_fill. induction ints as [| interval ints IH] using rev_ind.
  - cbn. apply length_replicate.
  - rewrite foldl_snoc, values_step_length; exact IH.
Qed.

Lemma values_fill_lookup ints start end_ i :
  0 <= i < end_ - start ->
  values_fill ints start end_ !! Z.to_nat i
  = Some (default nan (last_cover ints start end_ (start + i))).
Proof.
  intros Hi. unfold values_fill, last_cover.
  induction ints as [| interval ints IH] using rev_ind.
  - cbn. rewrite lookup_replicate_2 by lia. reflexivity.
  - rewrite foldl_snoc, rev_unit. cbn [List.find].
    rewrite values_step_lookup; [| apply values_fill_length | exact Hi].
    destruct (covers start end_ (start + i) interval); [reflexivity | exact IH].
Qed.

(** [values] returns the array filled from what [intervals] returned. *)
Lemma values_returns_fill fuel self chrom start end0 end_ tr ints :
  check_region self chrom start end0 = Returns end_ ->
  intervals fuel self chrom start end_ = (tr, Returns ints) ->
  values fuel self chrom start end0 = (tr, Returns (values_fill ints start end_)).
Proof.
  intros Hcheck Hints. unfold values. rewrite Hcheck.
  unfold mbind, M_bind, lift. cbn [bind]. rewrite Hints. cbn.
  rewrite app_nil_r. reflexivity.
Qed.

(** C7.  For a window [start < end], whatever list [ints] the query returns,
    values returns an array of length [end - start] whose position [i] holds
    the value of the last interval of [ints] whose clipped span covers
    [start + i], and the no-data value nan when there is none; an interval
    whose clipped span is empty changes nothing.  No interval gives an array
    of nan only, and the single interval (10,20,5.0) over [0,100) gives 5.0
    at the indices 10..19 and nan elsewhere. *)
Theorem values_dense_last_write_wins ints start end_ :
  start < end_ ->
  (forall fuel self chrom end0 tr,
      check_region self chrom start end0 = Returns end_ ->
      intervals fuel self chrom start end_ = (tr, Returns ints) ->
      values fuel self chrom start end0 = (tr, Returns (values_fill ints start end_)))
  /\ length (values_fill ints start end_) = Z.to_nat (end_ - start)
  /\ (forall i, 0 <= i < end_ - start ->
        values_fill ints start end_ !! Z.to_nat i
        = Some (default nan (last_cover ints start end_ (start + i))))
  /\ (forall o interval,
        Z.min interval.1.2 end_ <= Z.max interval.1.1 start ->
        values_step start end_ o interval = o)
  /\ values_fill [] 0 100 = replicate 100 nan
  /\ values_fill [(10, 20, 5%float)] 0 100
     = replicate 10 nan ++ replicate 10 5%float ++ replicate 80 nan.
Proof.
  intros Hlt. repeat split.
  - intros. eapply values_returns_fill; eassumption.
  - apply values_fill_length.
  - intros i Hi. apply values_fill_lookup, Hi.
  - intros o interval. apply values_step_skip.
Qed.

(** ** stats: theorems *)

(** The guard of [stats] only fires on the empty list: the start and end
    columns of the array given to [np.isnan] are never nan. *)
Lemma stats_of_None_iff ints start end_ :
  stats_of ints start end_ = Returns None <-> ints = [].
Proof.
  unfold stats_of. destruct ints as [| x ints].
  - cbn. split; reflexivity.
  - cbn [length Nat.eqb orb np_all_isnan forallb isnan_int andb].
    destruct (np_average _ _); split; discriminate.
Qed.

(** C6.  stats on the one interval (0,10,nan), whose value is the no-data
    sentinel, does not return None: it goes on to [np.average] and returns
    the list holding its result (or raises what it raises). *)
Theorem stats_all_nan_not_None :
  np_all_isnan [(0, 10, nan)] = false
  /\ stats_of [(0, 10, nan)] 0 0
     = match np_average [nan] [10] with
       | Some rv => Returns (Some [rv])
       | None => Raises ZeroDivisionError
       end
  /\ stats_of [(0, 10, nan)] 0 0 <> Returns None.
Proof.
  split; [reflexivity |]. split; [reflexivity |].
  intros H. apply stats_of_None_iff in H. discriminate.
Qed.

(** ** Opening a session: theorems *)

(** The error raised on this path is not the NotFound one. *)
Ltac no_NotFound :=
  let e := fresh "e" in
  let He := fresh "He" in
  intros e He; cbn in He; simplify_eq; cbn; discriminate.

Lemma init_search_failed sample0 url0 key srv msg :
  Rpc.search srv sample0 "experiments" key = NotOkay msg ->
  init sample0 url0 key srv = ([Call "search"], Raises (RuntimeError (SearchFailed msg))).
Proof. intros Hsearch. unfold init, getEID. cbn. rewrite Hsearch. reflexivity. Qed.

(** What [init] does when the search is okay, by the first entry of the
    result list whose name is the sample. *)
Lemma init_search_okay sample0 url0 key srv resps :
  Rpc.search srv sample0 "experiments" key = Okay resps ->
  match List.find (fun resp => String.eqb resp.2 sample0) resps with
  | None =>
      init sample0 url0 key srv
      = ([Call "search"], Raises (RuntimeError (NoExperiment sample0)))
  | Some (eid, _) =>
      if String.eqb eid "" then
        init sample0 url0 key srv
        = ([Call "search"], Raises (RuntimeError (NoExperiment sample0)))
      else
        (forall e, (init sample0 url0 key srv).2 = Raises e ->
                   kind_of e <> Some NotFound)
        /\ (forall tr self, init sample0 url0 key srv = (tr, Returns self) ->
              experimentID self = Some eid
              /\ exists resp, chromsDict self = Some (dict_of resp)
                              /\ chromsTuple self = Some resp)
  end.
Proof.
  intros Hsearch.
  destruct (List.find _ resps) as [[eid name] |] eqn:Hfind.
  - destruct (String.eqb eid "") eqn:Heid.
    + unfold init, getEID. cbn. rewrite Hsearch, Hfind. cbn. rewrite Heid. reflexivity.
    + unfold init, getEID. cbn. rewrite Hsearch, Hfind. cbn. rewrite Heid. cbn.
      destruct (Rpc.info srv (Some eid) key 0) as [[| resp0 l] | msg]; cbn.
      * split; [no_NotFound | intros tr self [=]].
      * unfold getGenome. cbn.
        destruct (resp0 !! "genome") as [g |]; cbn.
        -- destruct (String.eqb g ""); cbn.
           ++ split; [no_NotFound | intros tr self [=]].
           ++ destruct (Rpc.chromosomes srv (Some g) key) as [[| kv resp] | msg]; cbn.
              ** split; [no_NotFound | intros tr self [=]].
              ** split; [intros e [=] |].
                 intros tr self [= <- <-].
                 split; [reflexivity | exists (kv :: resp); split; reflexivity].
              ** split; [no_NotFound | intros tr self [=]].
        -- split; [no_NotFound | intros tr self [=]].
      * split; [no_NotFound | intros tr self [=]].
  - unfold init, getEID. cbn. rewrite Hsearch, Hfind. reflexivity.
Qed.

(** C4 (amended).  When the search is okay, opening a session fails with
    NotFound exactly when no entry of the result list has the sample's name,
    or the first such entry has an empty ID; with one or more exact matches
    the first one is taken as the experiment of the session. *)
Theorem init_NotFound_iff sample0 url0 key srv resps :
  Rpc.search srv sample0 "experiments" key = Okay resps ->
  let first := List.find (fun resp => String.eqb resp.2 sample0) resps in
  ((exists e, (init sample0 url0 key srv).2 = Raises e /\ kind_of e = Some NotFound)
   <-> truthy (fst <$> first) = false)
  /\ (forall tr self, init sample0 url0 key srv = (tr, Returns self) ->
        experimentID self = fst <$> first).
Proof.
  intros Hsearch first. subst first.
  pose proof (init_search_okay sample0 url0 key srv resps Hsearch) as H.
  destruct (List.find _ resps) as [[eid name] |]; cbn [fmap option_fmap option_map fst truthy].
  - destruct (String.eqb eid ""); cbn [negb].
    + rewrite H. cbn. split; [| intros tr self [=]].
      split; [reflexivity |]. intros _. eexists. split; reflexivity.
    + destruct H as [Hne Hret]. split.
      * split; [| discriminate]. intros (e & He & Hk). exfalso. exact (Hne e He Hk).
      * intros tr self Hinit. apply (Hret tr self Hinit).
  - rewrite H. cbn. split; [| intros tr self [=]].
    split; [reflexivity |]. intros _. eexists. split; reflexivity.
Qed.

(** ** chroms: theorems *)

(** C10.  On every session [init] returns, chroms never raises: without an
    argument it returns the chromosome dict, for a name in the dict its
    length, and for every other name None. *)
Theorem chroms_never_raises sample0 url0 key srv tr self :
  init sample0 url0 key srv = (tr, Returns self) ->
  exists d,
    chromsDict self = Some d
    /\ chroms self None = Returns (Dict (Some d))
    /\ (forall c n, d !! c = Some n -> chroms self (Some c) = Returns (Length n))
    /\ (forall c, d !! c = None -> chroms self (Some c) = Returns PyNone).
Proof.
  intros Hinit.
  assert (Hd : exists d, chromsDict self = Some d).
  { destruct (Rpc.search srv sample0 "experiments" key) as [resps | msg] eqn:Hsearch.
    - pose proof (init_search_okay sample0 url0 key srv resps Hsearch) as H.
      destruct (List.find _ resps) as [[eid name] |].
      + destruct (String.eqb eid "").
        * rewrite H in Hinit. discriminate.
        * destruct H as [_ H].
          destruct (H tr self Hinit) as (_ & resp & Hdict & _). eauto.
      + rewrite H in Hinit. discriminate.
    - rewrite (init_search_failed sample0 url0 key srv msg Hsearch) in Hinit.
      discriminate. }
  destruct Hd as [d Hd]. exists d. unfold chroms. rewrite Hd.
  repeat split.
  - intros c n ->. reflexivity.
  - intros c ->. reflexivity.
Qed.

(** ** intervals: theorems *)

Lemma poll_polled self reqID n st :
  polled self reqID n = Some st ->
  poll self reqID n = ([Call "info"], Returns st).
Proof.
  unfold polled, poll. intros H.
  destruct (Rpc.info (server self) (Some reqID) (userKey self) n) as [[| d l] | msg];
    try discriminate.
  cbn. rewrite H. reflexivity.
Qed.

(** The loop sleeps once before each further poll and stops at the first
    poll that reports "done" or "failed". *)
Lemma wait_while_stops self reqID st : forall k fuel n st0,
  is_terminal st0 = false ->
  (forall j, (j < k)%nat ->
     exists s, polled self reqID (n + j) = Some s /\ is_terminal s = false) ->
  polled self reqID (n + k) = Some st -> is_terminal st = true ->
  (k < fuel)%nat ->
  wait_while fuel self reqID n st0
  = (concat (replicate (S k) [Sleep 100; Call "info"]), Returns st).
Proof.
  induction k as [| k IH]; intros fuel n st0 Hst0 Hbefore Hk Hterm Hfuel;
    (destruct fuel as [| fuel]; [lia |]); cbn [wait_while]; rewrite Hst0.
  - rewrite Nat.add_0_r in Hk. rewrite (poll_polled _ _ _ _ Hk).
    cbn. destruct fuel; cbn; rewrite Hterm; reflexivity.
  - destruct (Hbefore 0%nat ltac:(lia)) as (s0 & Hs0 & Hnt).
    rewrite Nat.add_0_r in Hs0. rewrite (poll_polled _ _ _ _ Hs0).
    cbn [mbind M_bind bind emit].
    rewrite (IH fuel (S n) s0 Hnt); [reflexivity | | | assumption | lia].
    + intros j Hj. destruct (Hbefore (S j) ltac:(lia)) as (s & Hs & Hs').
      exists s. split; [| assumption]. rewrite <- Hs. f_equal. lia.
    + rewrite <- Hk. f_equal. lia.
Qed.

Lemma wait_stops self reqID st k fuel :
  (forall j, (j < k)%nat ->
     exists s, polled self reqID j = Some s /\ is_terminal s = false) ->
  polled self reqID k = Some st -> is_terminal st = true ->
  (k <= fuel)%nat ->
  wait fuel self reqID = (wait_trace k, Returns st).
Proof.
  intros Hbefore Hk Hterm Hfuel. unfold wait, wait_trace.
  destruct k as [| k].
  - rewrite (poll_polled _ _ _ _ Hk). cbn [mbind M_bind bind].
    destruct fuel; cbn [wait_while]; rewrite Hterm; reflexivity.
  - destruct (Hbefore 0%nat ltac:(lia)) as (s0 & Hs0 & Hnt).
    rewrite (poll_polled _ _ _ _ Hs0). cbn [mbind M_bind bind].
    rewrite (wait_while_stops self reqID st k fuel 1%nat s0 Hnt);
      [reflexivity | | assumption | assumption | lia].
    intros j Hj. apply (Hbefore (S j)). lia.
Qed.

(** C8 (amended).  After the retrieval request is submitted, intervals polls
    its state, sleeping 0.1 s before every further poll, until the state is
    "done" or "failed"; whichever of the two it is, intervals then asks for
    the request's data, and it is the status of that call that decides: a
    status other than okay is raised as a RemoteError carrying the server's
    message, an okay one has its payload parsed and returned. *)
Theorem intervals_polls_then_fetches fuel self chrom start end0 end_ q reqID k st :
  check_region self chrom start end0 = Returns end_ ->
  Rpc.select_experiments (server self) (sample self) (Some chrom) (Some start)
    (Some end_) (userKey self) = Okay (Some q) ->
  q <> "" ->
  Rpc.get_regions (server self) q "START,END,VALUE" (userKey self) = Okay reqID ->
  (forall j, (j < k)%nat ->
     exists s, polled self reqID j = Some s /\ is_terminal s = false) ->
  polled self reqID k = Some st -> is_terminal st = true ->
  (k <= fuel)%nat ->
  intervals fuel self chrom start end0
  = ([Call "select_experiments"; Call "get_regions"] ++ wait_trace k
       ++ [Call "get_request_data"],
     match Rpc.get_request_data (server self) reqID (userKey self) with
     | NotOkay resp => Raises (RuntimeError (GetDataFailed resp))
     | Okay resp => parse_intervals (split newline resp) []
     end)
  /\ List.filter is_sleep (wait_trace k) = replicate k (Sleep 100)
  /\ (forall resp,
        Rpc.get_request_data (server self) reqID (userKey self) = NotOkay resp ->
        exists e, (intervals fuel self chrom start end0).2 = Raises e
                  /\ kind_of e = Some RemoteError /\ message_of e = Some resp).
Proof.
  intros Hcheck Hselect Hq Hregions Hbefore Hk Hterm Hfuel.
  assert (Hrun : intervals fuel self chrom start end0
    = ([Call "select_experiments"; Call "get_regions"] ++ wait_trace k
         ++ [Call "get_request_data"],
       match Rpc.get_request_data (server self) reqID (userKey self) with
       | NotOkay resp => Raises (RuntimeError (GetDataFailed resp))
       | Okay resp => parse_intervals (split newline resp) []
       end)).
  { unfold intervals. rewrite Hcheck. cbn [lift mbind M_bind bind emit].
    rewrite Hselect. unfold truthy.
    destruct (String.eqb_spec q ""); [contradiction |]. cbn [negb default id].
    rewrite Hregions. cbn [mbind M_bind bind].
    rewrite (wait_stops self reqID st k fuel Hbefore Hk Hterm Hfuel).
    destruct (Rpc.get_request_data (server self) reqID (userKey self));
      cbn; rewrite ?app_nil_r; reflexivity. }
  split; [exact Hrun |]. split.
  - unfold wait_trace. clear. induction k as [| k IH]; [reflexivity |].
    cbn in *. f_equal. exact IH.
  - intros resp Hdata. rewrite Hrun, Hdata. cbn. eauto.
Qed.

(** ** preload: theorems *)

Lemma writer_open_app t1 t2 b :
  writer_open (t1 ++ t2) b = writer_open t2 (writer_open t1 b).
Proof.
  revert b. induction t1 as [| ev t1 IH]; intros b; [reflexivity |].
  destruct ev; cbn; apply IH.
Qed.

Lemma writer_open_quiet tr b : quiet tr -> writer_open tr b = b.
Proof.
  unfold quiet. induction 1 as [| ev tr Hev _ IH]; [reflexivity |].
  destruct ev; cbn in *; try discriminate; exact IH.
Qed.

Lemma quiet_no_toggle tr ev : quiet tr -> is_toggle ev = true -> ev ∉ tr.
Proof.
  unfold quiet. rewrite Forall_forall. intros Hq Hev Hin.
  specialize (Hq ev Hin). congruence.
Qed.

Lemma bind_quiet {A B} (m : M A) (k : A -> M B) :
  quiet m.1 -> (forall a, quiet (k a).1) -> quiet (m ≫= k).1.
Proof.
  intros Hm Hk. destruct m as [tr [a | e |]]; cbn in *; try exact Hm.
  specialize (Hk a). destruct (k a) as [tr' r]. cbn in *.
  apply Forall_app. split; assumption.
Qed.

Lemma poll_quiet self reqID n : quiet (poll self reqID n).1.
Proof.
  unfold poll. apply bind_quiet.
  - repeat constructor.
  - intros _.
    destruct (Rpc.info _ _ _ _) as [[| d l] | msg]; try constructor.
    + destruct (d !! "state"); constructor.
    + destruct (String.eqb msg ""); constructor.
Qed.

Lemma wait_while_quiet self reqID : forall fuel n st,
  quiet (wait_while fuel self reqID n st).1.
Proof.
  induction fuel as [| fuel IH]; intros n st; cbn [wait_while];
    destruct (is_terminal st); try constructor.
  apply bind_quiet; [repeat constructor |]. intros _.
  apply bind_quiet; [apply poll_quiet |]. intros st'. apply IH.
Qed.

Lemma wait_quiet fuel self reqID : quiet (wait fuel self reqID).1.
Proof.
  unfold wait. apply bind_quiet; [apply poll_quiet |].
  intros st. apply wait_while_quiet.
Qed.

Lemma add_entries_quiet records : quiet (add_entries records).1.
Proof.
  induction records as [| record rest IH]; cbn [add_entries]; [constructor |].
  destruct (split tab record) as [| f0 [| f1 fs1]]; try constructor.
  - destruct (String.eqb f0 ""); [exact IH | constructor].
  - destruct (String.eqb f0 ""); [exact IH |].
    destruct (py_int f1) as [a |]; [| destruct fs1; constructor].
    destruct fs1 as [| f2 fs2]; [constructor |].
    destruct (py_int f2) as [b |]; [| destruct fs2; constructor].
    destruct fs2 as [| f3 fs3]; [constructor |].
    destruct (py_float f3) as [v |]; [| constructor].
    apply bind_quiet; [repeat constructor | intros _; exact IH].
Qed.

(** Closes the goals saying that a trace made of calls, sleeps and added
    entries is quiet. *)
Ltac quiet_trace :=
  unfold quiet;
  repeat first [ assumption | apply Forall_app; split | constructor ].

(** A run that opened the writer and stopped on a failure after the quiet
    trace [tr]. *)
Ltac stops_after tr :=
  exists tr; split; [reflexivity |]; split; [quiet_trace |];
  left; eexists; split; [cbn; rewrite <- ?app_assoc; reflexivity | discriminate].

(** The two shapes of a run of [preload_send]: it stops at the upload, with
    nothing opened; or it opens the writer and then either fails somewhere
    on the way, or adds the entries, closes the writer and returns. *)
Lemma preload_send_shape fuel self regionsStr :
  let pre := [Call "input_regions"; TempFile tmpname; BwOpen tmpname;
              BwAddHeader (chromsTuple self)] in
  (exists msg,
      Rpc.input_regions (server self) (genome self) regionsStr (userKey self)
      = NotOkay msg
      /\ preload_send fuel self regionsStr
         = ([Call "input_regions"], Raises (UnboundLocalError "resp")))
  \/ (exists regionsID tr,
         Rpc.input_regions (server self) (genome self) regionsStr (userKey self)
         = Okay regionsID
         /\ quiet tr
         /\ ((exists r, preload_send fuel self regionsStr = (pre ++ tr, r)
                        /\ forall fname, r <> Returns fname)
             \/ preload_send fuel self regionsStr
                = (pre ++ tr ++ [BwClose], Returns tmpname))).
Proof.
  intros pre. unfold preload_send.
  destruct (Rpc.input_regions _ _ _ _) as [regionsID | msg]; [right | left; eauto].
  exists regionsID. cbn [mbind M_bind bind emit].
  destruct (Rpc.select_experiments _ _ _ _ _ _) as [queryID | msg];
    [| stops_after [Call "select_experiments"]].
  destruct (truthy queryID); cbn [negb];
    [| stops_after [Call "select_experiments"]].
  cbn [mbind M_bind bind emit].
  destruct (Rpc.intersection _ _ _ _) as [intersectID | msg];
    [| stops_after [Call "select_experiments"; Call "intersection"]].
  destruct (truthy intersectID); cbn [negb];
    [| stops_after [Call "select_experiments"; Call "intersection"]].
  cbn [mbind M_bind bind emit].
  destruct (Rpc.get_regions _ _ _ _) as [reqID | msg];
    [| stops_after [Call "select_experiments"; Call "intersection"; Call "get_regions"]].
  cbn [mbind M_bind bind emit].
  pose proof (wait_quiet fuel self reqID) as Hw.
  destruct (wait fuel self reqID) as [trw [st | e |]]; cbn [fst] in Hw;
    [| stops_after ([Call "select_experiments"; Call "intersection";
                     Call "get_regions"] ++ trw) ..].
  destruct (Rpc.get_request_data _ _ _) as [resp | msg];
    [| stops_after ([Call "select_experiments"; Call "intersection";
                     Call "get_regions"] ++ trw ++ [Call "get_request_data"])].
  pose proof (add_entries_quiet (split newline resp)) as Ha.
  destruct (add_entries (split newline resp)) as [tra [[] | e |]]; cbn [fst] in Ha;
    [| stops_after ([Call "select_experiments"; Call "intersection";
                     Call "get_regions"] ++ trw ++ [Call "get_request_data"] ++ tra) ..].
  exists ([Call "select_experiments"; Call "intersection"; Call "get_regions"]
            ++ trw ++ [Call "get_request_data"] ++ tra).
  split; [reflexivity |]. split; [quiet_trace |].
  right. cbn. rewrite <- ?app_assoc. reflexivity.
Qed.

(** As it is written, [preload] never gets to the upload: the loop over
    [self.chromsTuple.items()] raises first, with nothing sent or opened. *)
Lemma preload_raises_AttributeError fuel self regions :
  preload fuel self regions = ([], Raises AttributeError).
Proof.
  unfold preload.
  destruct (mergeRegions_returns regions) as [out ->].
  unfold preload_regionsStr. destruct (chromsTuple self); reflexivity.
Qed.


(** The block of preload that starts at the upload of the regions, taken by
    itself: the writer is opened as soon as that upload is okay and is closed
    on the success path only, as the last step before the file name is
    returned; on every path of the block that fails after the writer was
    opened (a call that is not okay, an empty handle, a record that does not
    parse, a wait that does not end), the block ends with the writer still
    open. *)
Theorem preload_send_closes_on_success_only fuel self regionsStr :
  let run := preload_send fuel self regionsStr in
  (forall fname, run.2 = Returns fname ->
     fname = tmpname /\ (BwOpen tmpname ∈ run.1) /\ last run.1 = Some BwClose
     /\ writer_open run.1 false = false)
  /\ ((forall fname, run.2 <> Returns fname) ->
      (BwClose ∉ run.1)
      /\ (forall regionsID,
            Rpc.input_regions (server self) (genome self) regionsStr (userKey self)
            = Okay regionsID ->
            (BwOpen tmpname ∈ run.1) /\ writer_open run.1 false = true)).
Proof.
  intros run. subst run.
  destruct (preload_send_shape fuel self regionsStr)
    as [(msg & Hin & ->) | (regionsID & tr & Hin & Hq & [(r & -> & Hr) | ->])];
    cbn [fst snd]; split.
  - intros fname [=].
  - intros _. split.
    + intros Hc. apply list_elem_of_singleton in Hc. discriminate.
    + intros regionsID. rewrite Hin. discriminate.
  - intros fname Hret. exfalso. exact (Hr fname Hret).
  - intros _. split.
    + intros Hc. apply elem_of_app in Hc as [Hc | Hc].
      * repeat (apply elem_of_cons in Hc as [Hc | Hc]; [discriminate |]).
        inversion Hc.
      * exact (quiet_no_toggle tr BwClose Hq eq_refl Hc).
    + intros _ _. split.
      * apply elem_of_app. left. repeat constructor.
      * rewrite writer_open_app. cbn. apply writer_open_quiet, Hq.
  - intros fname [= <-]. split; [reflexivity |]. split; [| split].
    + apply elem_of_app. left. repeat constructor.
    + rewrite !app_assoc. apply last_snoc.
    + rewrite !writer_open_app. cbn. reflexivity.
  - intros Hnot. exfalso. exact (Hnot tmpname eq_refl).
Qed.

(** ** mergeRegions: what holds for every input *)

Lemma string_compare_refl c : String.compare c c = Eq.
Proof. apply OrderedTypeEx.String_as_OT.cmp_eq. reflexivity. Qed.

Lemma string_compare_lt_trans a b c :
  String.compare a b = Lt -> String.compare b c = Lt -> String.compare a c = Lt.
Proof.
  intros H1 H2.
  apply OrderedTypeEx.String_as_OT.cmp_lt in H1, H2.
  apply OrderedTypeEx.String_as_OT.cmp_lt.
  eapply OrderedTypeEx.String_as_OT.lt_trans; eassumption.
Qed.

Lemma region_leb_spec c1 s1 e1 c2 s2 e2 :
  region_leb (c1, s1, e1) (c2, s2, e2) = true
  <-> String.compare c1 c2 = Lt
      \/ (c1 = c2 /\ (s1 < s2 \/ (s1 = s2 /\ e1 <= e2))).
Proof.
  unfold region_leb.
  destruct (String.compare c1 c2) eqn:Hc.
  - apply String.compare_eq_iff in Hc. subst c2.
    destruct (Z.ltb_spec s1 s2); [intuition lia |].
    destruct (Z.ltb_spec s2 s1).
    + split; [discriminate |]. intros [? | [_ ?]]; [discriminate | lia].
    + rewrite Z.leb_le. split; [intros; right; split; [reflexivity | lia] |].
      intros [? | [_ ?]]; [discriminate | lia].
  - split; [auto | reflexivity].
  - split; [discriminate |]. intros [? | [-> _]]; [discriminate |].
    rewrite string_compare_refl in Hc. discriminate.
Qed.

#[local] Instance region_le_trans : Transitive region_le.
Proof.
  intros [[c1 s1] e1] [[c2 s2] e2] [[c3 s3] e3]. unfold region_le.
  rewrite !region_leb_spec.
  intros [H1 | (-> & H1)] [H2 | (-> & H2)].
  - left. eapply string_compare_lt_trans; eassumption.
  - left. assumption.
  - left. assumption.
  - right. split; [reflexivity | lia].
Qed.

#[local] Instance region_le_total : Total region_le.
Proof.
  intros [[c1 s1] e1] [[c2 s2] e2]. unfold region_le.
  rewrite !region_leb_spec.
  destruct (String.compare c1 c2) eqn:Hc.
  - apply String.compare_eq_iff in Hc. subst c2.
    destruct (Z.lt_total s1 s2) as [? | [-> | ?]];
      [left | destruct (Z.le_ge_cases e1 e2); [left | right] | right];
      right; split; try reflexivity; lia.
  - left. left. reflexivity.
  - right. left. rewrite String.compare_antisym, Hc. reflexivity.
Qed.

(** Two regions that compare both ways are on the same chromosome. *)
Lemma region_le_antisym_chrom a b :
  region_le a b -> region_le b a -> a.1.1 = b.1.1.
Proof.
  destruct a as [[c1 s1] e1], b as [[c2 s2] e2]. unfold region_le.
  rewrite !region_leb_spec. cbn.
  intros [H1 | (-> & _)] [H2 | (H2 & _)]; try congruence.
  rewrite String.compare_antisym, H2 in H1. discriminate.
Qed.

Lemma insert_sorted_Permutation x l : insert_sorted x l ≡ₚ x :: l.
Proof.
  induction l as [| y l IH]; cbn; [reflexivity |].
  destruct (region_leb x y); [reflexivity |].
  rewrite IH. apply Permutation_swap.
Qed.

Lemma sorted_Permutation regions : sorted regions ≡ₚ regions.
Proof.
  unfold sorted. induction regions as [| x l IH]; cbn; [reflexivity |].
  rewrite insert_sorted_Permutation, IH. reflexivity.
Qed.

Lemma insert_sorted_StronglySorted x l :
  StronglySorted region_le l -> StronglySorted region_le (insert_sorted x l).
Proof.
  induction 1 as [| y l Hl IH Hy]; cbn; [repeat constructor |].
  destruct (region_leb x y) eqn:Hxy.
  - constructor; [constructor; assumption |].
    constructor; [exact Hxy |].
    eapply Forall_impl; [exact Hy |]. intros z Hz. etrans; [exact Hxy | exact Hz].
  - constructor; [exact IH |].
    rewrite insert_sorted_Permutation. constructor; [| exact Hy].
    destruct (total region_le x y) as [H | H]; [unfold region_le in H; congruence | exact H].
Qed.

Lemma sorted_StronglySorted regions : StronglySorted region_le (sorted regions).
Proof.
  unfold sorted. induction regions as [| x l IH]; cbn; [constructor |].
  apply insert_sorted_StronglySorted, IH.
Qed.

Lemma lookup_append_entry (k : option string) (v : option Z * option Z)
    (out : RegionDict) (k' : option string) :
  append_entry k v out !! k'
  = if decide (k = k') then Some (default [] (out !! k) ++ [v]) else out !! k'.
Proof. unfold append_entry. apply lookup_insert. Qed.

Lemma covered_append_entry (out : RegionDict) (k : option string)
    (v : option Z * option Z) c s e :
  covered out c s e -> covered (append_entry k v out) c s e.
Proof.
  intros (l & e2 & Hl & Hin & He). unfold covered.
  rewrite lookup_append_entry. destruct (decide (k = Some c)) as [-> | Hne].
  - rewrite Hl. cbn. exists (l ++ [v]), e2. split; [reflexivity |].
    split; [apply elem_of_app; left; exact Hin | exact He].
  - exists l, e2. auto.
Qed.

Lemma out_ok_mono pre pre' out c0 s0 :
  (forall x, x ∈ pre -> x ∈ pre') -> out_ok pre out c0 s0 -> out_ok pre' out c0 s0.
Proof.
  intros Hsub Hok k l Hl. destruct (Hok k l Hl) as (c & -> & Hc & Hasc & Hy).
  exists c. repeat split; try assumption.
  intros y Hin. destruct (Hy y Hin) as (s & e & -> & Hpre & Hb).
  exists s, e. auto.
Qed.

(** A region between two regions of one chromosome is on that chromosome. *)
Lemma region_le_same_chrom a p b :
  region_le a p -> region_le p b -> a.1.1 = b.1.1 -> a.1.1 = p.1.1.
Proof.
  destruct a as [[c1 s1] e1], p as [[cp sp] ep], b as [[c2 s2] e2].
  unfold region_le. intros H1 H2 Hc. cbn in Hc. subst c2. cbn.
  apply region_leb_spec in H1, H2.
  destruct H1 as [H1 | (-> & _)]; [| reflexivity].
  destruct H2 as [H2 | (-> & _)]; [| reflexivity].
  rewrite String.compare_antisym, H1 in H2. discriminate.
Qed.

(** Moving on from the region [p] to a later region [(c, s, e)]. *)
Lemma out_ok_rebound pre out p c s e :
  out_ok pre out p.1.1 p.1.2 ->
  (forall x, x ∈ pre -> region_le x p) ->
  region_le p (c, s, e) ->
  out_ok pre out c s.
Proof.
  destruct p as [[cp sp] ep]. cbn [fst snd]. intros Hok Hle Hpr k l Hl.
  destruct (Hok k l Hl) as (c' & -> & Hc & Hasc & Hy).
  exists c'. repeat split; try assumption.
  intros y Hin. destruct (Hy y Hin) as (s' & e' & -> & Hpre & Hb).
  exists s', e'. repeat split; try assumption.
  intros ->.
  pose proof (region_le_same_chrom _ _ _ (Hle _ Hpre) Hpr eq_refl) as Hc0.
  cbn in Hc0. subst cp. specialize (Hb eq_refl).
  unfold region_le in Hpr. apply region_leb_spec in Hpr.
  destruct Hpr as [Hpr | (_ & Hpr)]; [rewrite string_compare_refl in Hpr; discriminate | lia].
Qed.

(** Flushing the open interval [p] into [out]. *)
Lemma out_ok_flush pre out p c0 s0 :
  out_ok pre out c0 s0 -> out_ok pre out p.1.1 p.1.2 ->
  p ∈ pre -> p.1.1 <> "" -> (p.1.1 = c0 -> p.1.2 < s0) ->
  out_ok pre (append_entry (Some p.1.1) (Some p.1.2, Some p.2) out) c0 s0.
Proof.
  destruct p as [[cp sp] ep]. cbn [fst snd]. intros Hok0 Hokp Hp Hcp Hb k l.
  rewrite lookup_append_entry. destruct (decide (Some cp = k)) as [<- | Hne].
  - intros [= <-]. exists cp. split; [reflexivity |]. split; [exact Hcp |].
    destruct (out !! Some cp) as [l0 |] eqn:Hl0; cbn [default].
    + destruct (Hokp _ _ Hl0) as (c & [= <-] & _ & Hasc & Hy).
      destruct (Hok0 _ _ Hl0) as (c & [= <-] & _ & _ & Hy0).
      split.
      * apply StronglySorted_app_2; [| exact Hasc | repeat constructor].
        intros x1 x2 Hx1 Hx2. apply list_elem_of_singleton in Hx2. subst x2.
        destruct (Hy x1 Hx1) as (s & e & -> & _ & Hlt). exact (Hlt eq_refl).
      * intros y Hin. apply elem_of_app in Hin as [Hin | Hin]; [exact (Hy0 y Hin) |].
        apply list_elem_of_singleton in Hin. subst y. exists sp, ep. auto.
    + split; [repeat constructor |].
      intros y Hin. apply list_elem_of_singleton in Hin. subst y. exists sp, ep. auto.
  - intros Hl. exact (Hok0 k l Hl).
Qed.

Lemma region_le_refl r : region_le r r.
Proof. destruct (total region_le r r); assumption. Qed.

Lemma mergeRegions_step_inv pre p out last r :
  merge_inv pre p out last -> (forall x, x ∈ pre -> region_le x r) ->
  exists out' last',
    mergeRegions_step (out, last) r = Returns (out', last')
    /\ merge_inv (r :: pre) r out' last'.
Proof.
  destruct p as [[cp sp] ep], r as [[c s] e]. cbn [fst snd].
  intros (-> & Hp & Hle & Hok & Hcov) Hr. cbn [fst snd] in *.
  pose proof (Hr _ Hp) as Hpr.
  assert (Hsub : forall x, x ∈ pre -> x ∈ (c, s, e) :: pre)
    by (intros x Hx; apply elem_of_cons; right; exact Hx).
  assert (Hall : forall x, x ∈ (c, s, e) :: pre -> region_le x (c, s, e)).
  { intros x Hx. apply elem_of_cons in Hx as [-> | Hx]; [apply region_le_refl | auto]. }
  pose proof (out_ok_rebound pre out (cp, sp, ep) c s e Hok Hle Hpr) as Hok'.
  pose proof Hpr as Hpr'. unfold region_le in Hpr'. apply region_leb_spec in Hpr'.
  unfold mergeRegions_step. cbn [last0 last1 last2].
  destruct (decide (Some c = Some cp)) as [[= ->] | Hne].
  - destruct Hpr' as [Hlt | (_ & Hse)];
      [rewrite string_compare_refl in Hlt; discriminate |].
    destruct (Z.leb_spec s sp) as [Hs | Hs].
    + (* merged *)
      assert (s = sp) as -> by lia. assert (ep <= e) by lia.
      eexists _, _. split; [reflexivity |].
      split; [reflexivity |]. split; [apply elem_of_cons; left; reflexivity |].
      split; [exact Hall |]. split; [apply (out_ok_mono pre); assumption |].
      intros c' s' e' Hin Hc'. apply elem_of_cons in Hin as [[= -> -> ->] | Hin].
      * left. cbn. split; [reflexivity |]. split; [reflexivity | lia].
      * destruct (Hcov _ _ _ Hin Hc') as [(-> & -> & He') | Hc2]; [| right; exact Hc2].
        left. cbn. split; [reflexivity |]. split; [reflexivity | lia].
    + (* a later start on the same chromosome *)
      unfold truthy. destruct (String.eqb_spec cp "") as [-> | Hcp]; cbn [negb];
        eexists _, _; (split; [reflexivity |]);
        (split; [reflexivity |]); (split; [apply elem_of_cons; left; reflexivity |]);
        (split; [exact Hall |]).
      * split; [apply (out_ok_mono pre); assumption |].
        intros c' s' e' Hin Hc'. apply elem_of_cons in Hin as [[= -> -> ->] | Hin].
        -- contradiction.
        -- destruct (Hcov _ _ _ Hin Hc') as [(-> & _) | Hc2]; [contradiction | right; exact Hc2].
      * split.
        -- apply (out_ok_mono pre); [exact Hsub |].
           apply (out_ok_flush pre out (cp, sp, ep)); auto.
        -- intros c' s' e' Hin Hc'. apply elem_of_cons in Hin as [[= -> -> ->] | Hin].
           ++ left. cbn. split; [reflexivity |]. split; [reflexivity | lia].
           ++ right. destruct (Hcov _ _ _ Hin Hc') as [(-> & -> & He') | Hc2].
              ** exists (default [] (out !! Some cp) ++ [(Some sp, Some ep)]), ep.
                 rewrite lookup_append_entry, decide_True by reflexivity.
                 split; [reflexivity |]. split; [| exact He'].
                 apply elem_of_app. right. apply list_elem_of_singleton. reflexivity.
              ** apply covered_append_entry, Hc2.
  - assert (Hcne : cp <> c) by congruence.
    unfold truthy. destruct (String.eqb_spec cp "") as [-> | Hcp]; cbn [negb];
      eexists _, _; (split; [reflexivity |]);
      (split; [reflexivity |]); (split; [apply elem_of_cons; left; reflexivity |]);
      (split; [exact Hall |]).
    + split; [apply (out_ok_mono pre); assumption |].
      intros c' s' e' Hin Hc'. apply elem_of_cons in Hin as [[= -> -> ->] | Hin].
      * left. cbn. split; [reflexivity |]. split; [reflexivity | lia].
      * destruct (Hcov _ _ _ Hin Hc') as [(-> & _) | Hc2]; [contradiction | right; exact Hc2].
    + split.
      * apply (out_ok_mono pre); [exact Hsub |].
        apply (out_ok_flush pre out (cp, sp, ep)); auto.
        cbn. intros ->. contradiction.
      * intros c' s' e' Hin Hc'. apply elem_of_cons in Hin as [[= -> -> ->] | Hin].
        -- left. cbn. split; [reflexivity |]. split; [reflexivity | lia].
        -- right. destruct (Hcov _ _ _ Hin Hc') as [(-> & -> & He') | Hc2].
           ++ exists (default [] (out !! Some cp) ++ [(Some sp, Some ep)]), ep.
              rewrite lookup_append_entry, decide_True by reflexivity.
              split; [reflexivity |]. split; [| exact He'].
              apply elem_of_app. right. apply list_elem_of_singleton. reflexivity.
           ++ apply covered_append_entry, Hc2.
Qed.

Lemma merge_inv_equiv pre pre' p out last :
  (forall x, x ∈ pre <-> x ∈ pre') -> merge_inv pre p out last -> merge_inv pre' p out last.
Proof.
  intros Heq (Hlast & Hp & Hle & Hok & Hcov).
  split; [exact Hlast |]. split; [apply Heq, Hp |].
  split; [intros x Hx; apply Hle, Heq, Hx |].
  split; [apply (out_ok_mono pre); [intros x; apply Heq | exact Hok] |].
  intros c s e Hin. apply Hcov, Heq, Hin.
Qed.

Lemma mergeRegions_loop_inv bar : forall pre p out last,
  merge_inv pre p out last ->
  StronglySorted region_le bar ->
  (forall x y, x ∈ pre -> y ∈ bar -> region_le x y) ->
  exists p' out' last',
    mergeRegions_loop (out, last) bar = Returns (out', last')
    /\ merge_inv (reverse bar ++ pre) p' out' last'.
Proof.
  induction bar as [| r bar IH]; intros pre p out last Hinv Hsorted Hpre.
  - exists p, out, last. split; [reflexivity | exact Hinv].
  - apply StronglySorted_cons in Hsorted as [Hr Hsorted].
    rewrite Forall_forall in Hr.
    destruct (mergeRegions_step_inv pre p out last r Hinv) as (out1 & last1 & Hstep & Hinv1).
    { intros x Hx. apply Hpre; [exact Hx | apply elem_of_cons; left; reflexivity]. }
    destruct (IH (r :: pre) r out1 last1 Hinv1 Hsorted) as (p' & out' & last' & Hloop & Hinv').
    { intros x y Hx Hy. apply elem_of_cons in Hx as [-> | Hx]; [apply Hr, Hy |].
      apply Hpre; [exact Hx | apply elem_of_cons; right; exact Hy]. }
    exists p', out', last'. cbn [mergeRegions_loop]. rewrite Hstep.
    split; [exact Hloop |].
    rewrite reverse_cons, <- app_assoc. exact Hinv'.
Qed.

(** What [mergeRegions] returns for a sequence that is not empty: the dict
    built by the loop, with the last open interval [p] flushed into it. *)
Lemma mergeRegions_nonempty regions :
  regions <> [] ->
  exists p out' last',
    mergeRegions regions
    = Returns (append_entry (Some p.1.1) (Some p.1.2, Some p.2) out')
    /\ merge_inv regions p out' last'.
Proof.
  intros Hne. unfold mergeRegions.
  pose proof (sorted_StronglySorted regions) as Hsorted.
  pose proof (sorted_Permutation regions) as Hperm.
  destruct (sorted regions) as [| r0 bar] eqn:Hbar.
  { apply Permutation_nil_l in Hperm. congruence. }
  apply StronglySorted_cons in Hsorted as [Hr0 Hsorted].
  rewrite Forall_forall in Hr0.
  assert (Hinv0 : merge_inv [r0] r0 ∅ (mkLast (Some r0.1.1) (Some r0.1.2) (Some r0.2))).
  { split; [reflexivity |]. split; [apply list_elem_of_singleton; reflexivity |].
    split; [intros x Hx; apply list_elem_of_singleton in Hx; subst x; apply region_le_refl |].
    split; [intros k l Hl; rewrite lookup_empty in Hl; discriminate |].
    intros c s e Hin _. apply list_elem_of_singleton in Hin. subst r0.
    left. cbn. split; [reflexivity |]. split; [reflexivity | lia]. }
  destruct (mergeRegions_loop_inv bar [r0] r0 ∅ _ Hinv0 Hsorted)
    as (p & out' & last' & Hloop & Hinv).
  { intros x y Hx Hy. apply list_elem_of_singleton in Hx. subst x. apply Hr0, Hy. }
  cbn [mergeRegions_loop]. destruct r0 as [[c0 s0] e0].
  unfold mergeRegions_step. cbn [last0 last1 last2 truthy].
  rewrite decide_False by discriminate. cbn [fst snd] in Hloop. rewrite Hloop.
  destruct Hinv as (Hlast & Hrest). rewrite Hlast. cbn [last0 last1 last2].
  exists p, out', last'. split; [reflexivity |].
  apply (merge_inv_equiv (reverse bar ++ [(c0, s0, e0)])); [| split; assumption].
  intros x. rewrite <- Hperm, elem_of_app, elem_of_reverse, elem_of_cons,
    list_elem_of_singleton. tauto.
Qed.

Lemma mergeRegions_nil :
  mergeRegions [] = Returns {[ None := [(None, None)] ]}.
Proof. vm_compute. reflexivity. Qed.

(** X1.  Whatever the sequence of regions, in the dict mergeRegions returns
    every list holds its spans in strictly ascending order of their starts
    (the "sorted lists" of the docstring): no start occurs twice. *)
Theorem mergeRegions_spans_ascending regions :
  exists out,
    mergeRegions regions = Returns out
    /\ forall k l, out !! k = Some l -> spans_ascending l.
Proof.
  destruct regions as [| r regions].
  - eexists. split; [apply mergeRegions_nil |].
    intros k l Hl. apply lookup_singleton_Some in Hl as [_ <-]. repeat constructor.
  - destruct (mergeRegions_nonempty (r :: regions)) as (p & out' & last' & -> & Hinv);
      [discriminate |].
    eexists. split; [reflexivity |].
    destruct Hinv as (_ & _ & _ & Hok & _).
    intros k l. rewrite lookup_append_entry.
    destruct (decide (Some p.1.1 = k)) as [<- | Hne]; [| intros Hl].
    + intros [= <-]. destruct (out' !! Some p.1.1) as [l0 |] eqn:Hl0; cbn [default].
      * destruct (Hok _ _ Hl0) as (c & [= <-] & _ & Hasc & Hy).
        apply StronglySorted_app_2; [| exact Hasc | repeat constructor].
        intros x1 x2 Hx1 Hx2. apply list_elem_of_singleton in Hx2. subst x2.
        destruct (Hy x1 Hx1) as (s & e & -> & _ & Hlt). exact (Hlt eq_refl).
      * repeat constructor.
    + destruct (Hok _ _ Hl) as (c & _ & _ & Hasc & _). exact Hasc.
Qed.

(** X2.  Every span mergeRegions returns under a chromosome name is one of
    the input regions of that chromosome, start and end unchanged: the code
    drops regions, it never widens or invents one. *)
Theorem mergeRegions_spans_are_regions regions :
  exists out,
    mergeRegions regions = Returns out
    /\ forall c l y, out !! Some c = Some l -> y ∈ l ->
         exists s e, y = (Some s, Some e) /\ (c, s, e) ∈ regions.
Proof.
  destruct regions as [| r regions].
  - eexists. split; [apply mergeRegions_nil |].
    intros c l y Hl. apply lookup_singleton_Some in Hl as [[=] _].
  - destruct (mergeRegions_nonempty (r :: regions)) as (p & out' & last' & -> & Hinv);
      [discriminate |].
    eexists. split; [reflexivity |].
    destruct Hinv as (_ & Hp & _ & Hok & _).
    intros c l y. rewrite lookup_append_entry.
    destruct (decide (Some p.1.1 = Some c)) as [[= <-] | Hne].
    + intros [= <-] Hin. apply elem_of_app in Hin as [Hin | Hin].
      * destruct (out' !! Some p.1.1) as [l0 |] eqn:Hl0; cbn [default] in Hin;
          [| inversion Hin].
        destruct (Hok _ _ Hl0) as (c & [= <-] & _ & _ & Hy).
        destruct (Hy y Hin) as (s & e & -> & Hpre & _). eauto.
      * apply list_elem_of_singleton in Hin. subst y.
        exists p.1.2, p.2. split; [reflexivity |].
        destruct p as [[cp sp] ep]. exact Hp.
    + intros Hl Hin. destruct (Hok _ _ Hl) as (c' & [= <-] & _ & _ & Hy).
      destruct (Hy y Hin) as (s & e & -> & Hpre & _). eauto.
Qed.

(** X3.  No region of a named chromosome is lost: for every input region
    whose chromosome name is not empty, the list returned for its chromosome
    holds a span that starts where the region starts and ends at or after
    its end. *)
Theorem mergeRegions_covers_regions regions :
  exists out,
    mergeRegions regions = Returns out
    /\ forall c s e, (c, s, e) ∈ regions -> c <> "" -> covered out c s e.
Proof.
  destruct regions as [| r regions].
  - eexists. split; [apply mergeRegions_nil |]. intros c s e Hin. inversion Hin.
  - destruct (mergeRegions_nonempty (r :: regions)) as (p & out' & last' & -> & Hinv);
      [discriminate |].
    eexists. split; [reflexivity |].
    destruct Hinv as (_ & _ & _ & _ & Hcov).
    intros c s e Hin Hc. destruct (Hcov c s e Hin Hc) as [(-> & -> & He) | Hc2].
    + exists (default [] (out' !! Some p.1.1) ++ [(Some p.1.2, Some p.2)]), p.2.
      rewrite lookup_append_entry, decide_True by reflexivity.
      split; [reflexivity |]. split; [| exact He].
      apply elem_of_app. right. apply list_elem_of_singleton. reflexivity.
    + apply covered_append_entry, Hc2.
Qed.

(** ** makeTiles: what holds for every input *)

(** The list being appended to comes out as a prefix of the result. *)
Lemma makeTiles_while_out fuel k v binSize gap : forall start out,
  makeTiles_while fuel k v binSize gap start out
  = match makeTiles_while fuel k v binSize gap start [] with
    | Returns tiles => Returns (out ++ tiles)
    | Raises x => Raises x
    | OutOfFuel => OutOfFuel
    end.
Proof.
  induction fuel as [| fuel IH]; intros start out; cbn [makeTiles_while].
  - destruct (start <=? v); [reflexivity | rewrite app_nil_r; reflexivity].
  - destruct (start <=? v); [| rewrite app_nil_r; reflexivity].
    rewrite IH. rewrite (IH _ ([] ++ _)).
    destruct (makeTiles_while fuel k v binSize gap _ []); try reflexivity.
    rewrite app_nil_l, app_assoc. reflexivity.
Qed.

Lemma makeTiles_for_out fuel binSize gap chromsTuple : forall out,
  makeTiles_for fuel chromsTuple binSize gap out
  = match makeTiles_for fuel chromsTuple binSize gap [] with
    | Returns tiles => Returns (out ++ tiles)
    | Raises x => Raises x
    | OutOfFuel => OutOfFuel
    end.
Proof.
  induction chromsTuple as [| [k v] rest IH]; intros out; cbn [makeTiles_for].
  - rewrite app_nil_r. reflexivity.
  - rewrite (makeTiles_while_out fuel k v binSize gap 0 out).
    destruct (makeTiles_while fuel k v binSize gap 0 []) as [tiles | x |]; try reflexivity.
    rewrite IH, (IH tiles).
    destruct (makeTiles_for fuel rest binSize gap []); try reflexivity.
    rewrite app_assoc. reflexivity.
Qed.

Lemma makeTiles_for_app fuel binSize gap chroms1 chroms2 : forall out,
  makeTiles_for fuel (chroms1 ++ chroms2) binSize gap out
  = match makeTiles_for fuel chroms1 binSize gap out with
    | Returns tiles1 => makeTiles_for fuel chroms2 binSize gap tiles1
    | Raises x => Raises x
    | OutOfFuel => OutOfFuel
    end.
Proof.
  induction chroms1 as [| [k v] rest IH]; intros out; cbn [app makeTiles_for].
  - reflexivity.
  - destruct (makeTiles_while fuel k v binSize gap 0 out); try reflexivity. apply IH.
Qed.

Lemma makeTiles_concat fuel chroms1 chroms2 binSize gap :
  makeTiles fuel (chroms1 ++ chroms2) binSize gap
  = match makeTiles fuel chroms1 binSize gap with
    | Returns tiles1 =>
        match makeTiles fuel chroms2 binSize gap with
        | Returns tiles2 => Returns (tiles1 ++ tiles2)
        | Raises x => Raises x
        | OutOfFuel => OutOfFuel
        end
    | Raises x => Raises x
    | OutOfFuel => OutOfFuel
    end.
Proof.
  unfold makeTiles. rewrite makeTiles_for_app.
  destruct (makeTiles_for fuel chroms1 binSize gap []) as [tiles1 | x |];
    try reflexivity.
  apply makeTiles_for_out.
Qed.

(** X4.  makeTiles works chromosome by chromosome, in the order of
    chromsTuple: the tiles of a list of chromosomes are the tiles of its first
    part followed by the tiles of the rest, and it returns only if both do. *)
Theorem makeTiles_app fuel chroms1 chroms2 binSize gap :
  makeTiles fuel (chroms1 ++ chroms2) binSize gap
  = match makeTiles fuel chroms1 binSize gap with
    | Returns tiles1 =>
        match makeTiles fuel chroms2 binSize gap with
        | Returns tiles2 => Returns (tiles1 ++ tiles2)
        | Raises x => Raises x
        | OutOfFuel => OutOfFuel
        end
    | Raises x => Raises x
    | OutOfFuel => OutOfFuel
    end.
Proof. apply makeTiles_concat. Qed.

Lemma makeTiles_while_never_raises fuel k v binSize gap : forall start out x,
  makeTiles_while fuel k v binSize gap start out <> Raises x.
Proof.
  induction fuel as [| fuel IH]; intros start out x; cbn [makeTiles_while];
    destruct (start <=? v); try discriminate. apply IH.
Qed.

(** The tiles of one chromosome, from a start that is not negative. *)
Lemma makeTiles_while_tiles fuel k v binSize gap : forall start tiles,
  0 <= binSize -> 0 <= gap -> 0 <= start ->
  makeTiles_while fuel k v binSize gap start [] = Returns tiles ->
  Forall (fun t => t.1.1 = k /\ start <= t.1.2 <= t.2 /\ t.2 <= v /\ t.2 - t.1.2 <= binSize)
    tiles
  /\ StronglySorted tile_before tiles.
Proof.
  induction fuel as [| fuel IH]; intros start tiles Hbin Hgap Hstart;
    cbn [makeTiles_while]; destruct (Z.leb_spec start v) as [Hle | Hgt];
    try discriminate; try (intros [= <-]; split; constructor).
  rewrite makeTiles_while_out. cbn [app].
  set (end_ := if start + binSize >? v then v else start + binSize).
  assert (Hend : start <= end_ <= v /\ end_ - start <= binSize).
  { subst end_. destruct (Z.gtb_spec (start + binSize) v); lia. }
  clearbody end_.
  destruct (makeTiles_while fuel k v binSize gap (start + (end_ + gap)) [])
    as [rest | |] eqn:Hrest; try discriminate.
  intros [= <-].
  destruct (IH (start + (end_ + gap)) rest Hbin Hgap ltac:(lia) Hrest) as [Hall Hsorted].
  split.
  - constructor; [cbn; split; [reflexivity | lia] |].
    eapply Forall_impl; [exact Hall |]. cbn. intros t (? & ? & ? & ?).
    split; [assumption | lia].
  - constructor; [exact Hsorted |].
    eapply Forall_impl; [exact Hall |]. unfold tile_before. cbn.
    intros t (? & ? & ? & ?). lia.
Qed.

(** X5.  With a bin size and a gap that are not negative, every tile
    makeTiles returns lies inside a chromosome of chromsTuple named like it
    ([0 <= start <= end <= length]) and is at most binSize wide. *)
Theorem makeTiles_tiles_in_bounds fuel chromsTuple binSize gap tiles :
  0 <= binSize -> 0 <= gap ->
  makeTiles fuel chromsTuple binSize gap = Returns tiles ->
  forall k s e, (k, s, e) ∈ tiles ->
    exists v, (k, v) ∈ chromsTuple /\ 0 <= s <= e /\ e <= v /\ e - s <= binSize.
Proof.
  intros Hbin Hgap. revert tiles.
  induction chromsTuple as [| [k0 v0] rest IH]; intros tiles.
  - intros [= <-] k s e Hin. inversion Hin.
  - change ((k0, v0) :: rest) with ([(k0, v0)] ++ rest). rewrite makeTiles_concat.
    destruct (makeTiles fuel [(k0, v0)] binSize gap) as [tiles1 | |] eqn:H1;
      try discriminate.
    destruct (makeTiles fuel rest binSize gap) as [tiles2 | |] eqn:H2; try discriminate.
    intros [= <-] k s e Hin. apply elem_of_app in Hin as [Hin | Hin].
    + unfold makeTiles in H1. cbn [makeTiles_for] in H1.
      destruct (makeTiles_while fuel k0 v0 binSize gap 0 []) as [t | |] eqn:Hw;
        try discriminate.
      injection H1 as <-.
      destruct (makeTiles_while_tiles fuel k0 v0 binSize gap 0 t Hbin Hgap ltac:(lia) Hw) as [Hall _].
      rewrite Forall_forall in Hall. destruct (Hall _ Hin) as (Hk & ? & ? & ?).
      cbn in *. subst k0. exists v0. split; [apply elem_of_cons; left; reflexivity | lia].
    + destruct (IH tiles2 eq_refl k s e Hin) as (v & Hv & ?).
      exists v. split; [apply elem_of_cons; right; exact Hv | assumption].
Qed.

(** X6.  With a bin size and a gap that are not negative, the tiles of one
    chromosome come in ascending order and never overlap: each tile ends at
    or before the start of every later one. *)
Theorem makeTiles_tiles_disjoint fuel k v binSize gap tiles :
  0 <= binSize -> 0 <= gap ->
  makeTiles fuel [(k, v)] binSize gap = Returns tiles ->
  StronglySorted tile_before tiles.
Proof.
  intros Hbin Hgap. unfold makeTiles. cbn [makeTiles_for].
  destruct (makeTiles_while fuel k v binSize gap 0 []) as [t | |] eqn:Hw; try discriminate.
  intros [= <-].
  exact (proj2 (makeTiles_while_tiles fuel k v binSize gap 0 t Hbin Hgap ltac:(lia) Hw)).
Qed.

Lemma makeTiles_while_terminates k v binSize gap : forall fuel start out,
  0 < binSize -> 0 <= gap -> (v <> 0 \/ 0 < gap) -> 0 <= start ->
  v + 1 - start <= Z.of_nat fuel ->
  exists tiles, makeTiles_while fuel k v binSize gap start out = Returns tiles.
Proof.
  induction fuel as [| fuel IH]; intros start out Hbin Hgap Hv Hstart Hfuel;
    cbn [makeTiles_while]; destruct (Z.leb_spec start v) as [Hle | Hgt];
    eauto; [lia |].
  apply IH; try assumption.
  - destruct (Z.gtb_spec (start + binSize) v); lia.
  - destruct (Z.gtb_spec (start + binSize) v); lia.
Qed.

(** X7.  makeTiles returns when the bin size is positive, the gap is not
    negative and no chromosome has length 0 unless the gap is positive: one
    iteration per unit of chromosome length, plus one, is enough. *)
Theorem makeTiles_terminates fuel chromsTuple binSize gap :
  0 < binSize -> 0 <= gap ->
  (forall k v, (k, v) ∈ chromsTuple -> (v <> 0 \/ 0 < gap) /\ v + 1 <= Z.of_nat fuel) ->
  exists tiles, makeTiles fuel chromsTuple binSize gap = Returns tiles.
Proof.
  intros Hbin Hgap. unfold makeTiles. generalize (@nil region) as out.
  induction chromsTuple as [| [k v] rest IH]; intros out Hall; cbn [makeTiles_for].
  - eauto.
  - assert (Hhere : (k, v) ∈ (k, v) :: rest) by (apply elem_of_cons; left; reflexivity).
    destruct (Hall k v Hhere) as [Hv Hfuel].
    destruct (makeTiles_while_terminates k v binSize gap fuel 0 out Hbin Hgap Hv
                ltac:(lia) ltac:(lia)) as [tiles ->].
    apply IH. intros k' v' Hin. apply (Hall k' v'), elem_of_cons. right. exact Hin.
Qed.

Lemma makeTiles_while_zero_length k binSize : forall fuel start out,
  start <= 0 -> makeTiles_while fuel k 0 binSize 0 start out = OutOfFuel.
Proof.
  induction fuel as [| fuel IH]; intros start out Hstart; cbn [makeTiles_while];
    destruct (Z.leb_spec start 0); try lia; [reflexivity |].
  apply IH. destruct (Z.gtb_spec (start + binSize) 0); lia.
Qed.

(** X8.  With a gap of 0, a chromosome of length 0 in chromsTuple makes
    makeTiles loop for ever, whatever the bin size: the start never gets past
    0, so no number of iterations is enough. *)
Theorem makeTiles_zero_length_never_returns fuel chromsTuple k binSize :
  (k, 0) ∈ chromsTuple ->
  makeTiles fuel chromsTuple binSize 0 = OutOfFuel.
Proof.
  unfold makeTiles. generalize (@nil region) as out.
  induction chromsTuple as [| [k' v'] rest IH]; intros out Hin; [inversion Hin |].
  cbn [makeTiles_for]. apply elem_of_cons in Hin as [[= <- <-] | Hin].
  - rewrite makeTiles_while_zero_length by lia. reflexivity.
  - destruct (makeTiles_while fuel k' v' binSize 0 0 out) as [out' | x |] eqn:Hw.
    + apply IH, Hin.
    + exfalso. exact (makeTiles_while_never_raises _ _ _ _ _ _ _ _ Hw).
    + reflexivity.
Qed.

(** ** isDeepBlue: theorems *)

Lemma append_nil_l (s : string) : "" +:+ s = s.
Proof. reflexivity. Qed.

Lemma append_cons (c : ascii) (s t : string) : String c s +:+ t = String c (s +:+ t).
Proof. reflexivity. Qed.

Lemma endswith_spec s suffix :
  endswith s suffix = true <-> exists base, s = base +:+ suffix.
Proof.
  induction s as [| c s IH]; cbn [endswith].
  - destruct (String.eqb_spec "" suffix) as [<- | Hne].
    + split; [intros _; exists ""; reflexivity | reflexivity].
    + split; [discriminate |]. intros [base Hbase].
      destruct base; rewrite ?append_nil_l, ?append_cons in Hbase;
        [congruence | discriminate].
  - destruct (String.eqb_spec (String c s) suffix) as [<- | Hne].
    + split; [intros _; exists ""; reflexivity | reflexivity].
    + rewrite IH. split.
      * intros [base ->]. exists (String c base). reflexivity.
      * intros [base Hbase].
        destruct base as [| c' base]; rewrite ?append_nil_l, ?append_cons in Hbase.
        -- congruence.
        -- injection Hbase as -> ->. eauto.
Qed.

(** X9.  isDeepBlue accepts exactly the file names that end in ".wig",
    ".wiggle" or ".bedgraph" (in this spelling). *)
Theorem isDeepBlue_iff fname :
  isDeepBlue fname = true
  <-> exists base,
        fname = base +:+ ".wig" \/ fname = base +:+ ".wiggle"
        \/ fname = base +:+ ".bedgraph".
Proof.
  unfold isDeepBlue.
  destruct (endswith fname ".wig") eqn:H1.
  { apply endswith_spec in H1 as [base ->]. split; [eauto | reflexivity]. }
  destruct (endswith fname ".wiggle") eqn:H2.
  { apply endswith_spec in H2 as [base ->]. split; [eauto | reflexivity]. }
  destruct (endswith fname ".bedgraph") eqn:H3.
  { apply endswith_spec in H3 as [base ->]. split; [eauto | reflexivity]. }
  split; [discriminate |].
  intros [base [H | [H | H]]].
  - rewrite (proj2 (endswith_spec fname ".wig")) in H1 by eauto. discriminate.
  - rewrite (proj2 (endswith_spec fname ".wiggle")) in H2 by eauto. discriminate.
  - rewrite (proj2 (endswith_spec fname ".bedgraph")) in H3 by eauto. discriminate.
Qed.

(** ** Opening a session: more theorems *)

(** What [init] does once the search has found the experiment [eid], by the
    answers of the two calls that follow. *)
Lemma init_after_search sample0 url0 key srv resps eid name :
  Rpc.search srv sample0 "experiments" key = Okay resps ->
  List.find (fun resp => String.eqb resp.2 sample0) resps = Some (eid, name) ->
  eid <> "" ->
  init sample0 url0 key srv
  = match Rpc.info srv (Some eid) key 0 with
    | NotOkay resp =>
        ([Call "search"; Call "info"], Raises (RuntimeError (InfoFailed resp)))
    | Okay [] => ([Call "search"; Call "info"], Raises IndexError)
    | Okay (resp0 :: _) =>
        match resp0 !! "genome" with
        | None => ([Call "search"; Call "info"], Raises (RuntimeError (NoGenome sample0)))
        | Some g =>
            if String.eqb g "" then
              ([Call "search"; Call "info"], Raises (RuntimeError (NoGenome sample0)))
            else
              match Rpc.chromosomes srv (Some g) key with
              | NotOkay resp =>
                  ([Call "search"; Call "info"; Call "chromosomes"],
                   Raises (RuntimeError (ChromosomesFailed resp)))
              | Okay [] =>
                  ([Call "search"; Call "info"; Call "chromosomes"],
                   Raises (RuntimeError (NoChroms sample0)))
              | Okay (kv :: resp) =>
                  ([Call "search"; Call "info"; Call "chromosomes"],
                   Returns (mkDeepBlue sample0 url0 key srv (Some resp0) (Some eid)
                              (Some g) (Some (dict_of (kv :: resp))) (Some (kv :: resp))))
              end
        end
    end.
Proof.
  intros Hsearch Hfind Heid. unfold init, getEID. cbn. rewrite Hsearch, Hfind. cbn.
  destruct (String.eqb_spec eid ""); [contradiction |]. cbn.
  destruct (Rpc.info srv (Some eid) key 0) as [[| resp0 l] | msg]; cbn; try reflexivity.
  unfold getGenome. cbn.
  destruct (resp0 !! "genome") as [g |]; cbn; [| reflexivity].
  destruct (String.eqb g ""); cbn; [reflexivity |].
  destruct (Rpc.chromosomes srv (Some g) key) as [[| kv resp] | msg]; reflexivity.
Qed.

(** A run of [init] that returns went through the three calls. *)
Lemma init_returns_inv sample0 url0 key srv tr self :
  init sample0 url0 key srv = (tr, Returns self) ->
  exists resps eid name resp0 l g resp,
    Rpc.search srv sample0 "experiments" key = Okay resps
    /\ List.find (fun resp => String.eqb resp.2 sample0) resps = Some (eid, name)
    /\ eid <> ""
    /\ Rpc.info srv (Some eid) key 0 = Okay (resp0 :: l)
    /\ resp0 !! "genome" = Some g /\ g <> ""
    /\ Rpc.chromosomes srv (Some g) key = Okay resp /\ resp <> []
    /\ tr = [Call "search"; Call "info"; Call "chromosomes"]
    /\ self = mkDeepBlue sample0 url0 key srv (Some resp0) (Some eid) (Some g)
                (Some (dict_of resp)) (Some resp).
Proof.
  intros Hinit.
  destruct (Rpc.search srv sample0 "experiments" key) as [resps | msg] eqn:Hsearch.
  2:{ rewrite (init_search_failed sample0 url0 key srv msg Hsearch) in Hinit. discriminate. }
  pose proof (init_search_okay sample0 url0 key srv resps Hsearch) as Hok.
  destruct (List.find _ resps) as [[eid name] |] eqn:Hfind;
    [| rewrite Hok in Hinit; discriminate].
  destruct (String.eqb_spec eid "") as [-> | Heid];
    [rewrite Hok in Hinit; discriminate |]. clear Hok.
  rewrite (init_after_search sample0 url0 key srv resps eid name Hsearch Hfind Heid)
    in Hinit.
  destruct (Rpc.info srv (Some eid) key 0) as [[| resp0 l] | msg] eqn:Hinfo;
    try discriminate.
  destruct (resp0 !! "genome") as [g |] eqn:Hg; [| discriminate].
  destruct (String.eqb_spec g "") as [-> | Hgne]; [discriminate |].
  destruct (Rpc.chromosomes srv (Some g) key) as [[| kv resp] | msg] eqn:Hchroms;
    try discriminate.
  injection Hinit as <- <-.
  exists resps, eid, name, resp0, l, g, (kv :: resp).
  repeat split; try assumption; discriminate.
Qed.

(** X10.  Every session __init__ returns was built by exactly the three
    calls search, info, chromosomes; it keeps the sample, key and server it
    was given, has a non-empty experiment ID and genome, the genome is the one
    named in its info, and chromsTuple and chromsDict are the non-empty
    chromosome list the server gave for that genome. *)
Theorem init_session_invariants sample0 url0 key srv tr self :
  init sample0 url0 key srv = (tr, Returns self) ->
  tr = [Call "search"; Call "info"; Call "chromosomes"]
  /\ sample self = sample0 /\ userKey self = key /\ server self = srv
  /\ truthy (experimentID self) = true
  /\ truthy (genome self) = true
  /\ (exists d, info self = Some d /\ d !! "genome" = genome self)
  /\ (exists resp,
        Rpc.chromosomes srv (genome self) key = Okay resp /\ resp <> []
        /\ chromsTuple self = Some resp /\ chromsDict self = Some (dict_of resp)).
Proof.
  intros Hinit.
  destruct (init_returns_inv _ _ _ _ _ _ Hinit)
    as (resps & eid & name & resp0 & l & g & resp & _ & _ & Heid & _ & Hg & Hgne
        & Hchroms & Hresp & -> & ->).
  cbn. split; [reflexivity |]. repeat (split; [reflexivity |]).
  split; [destruct (String.eqb_spec eid ""); [contradiction | reflexivity] |].
  split; [destruct (String.eqb_spec g ""); [contradiction | reflexivity] |].
  split; [exists resp0; auto | exists resp; auto].
Qed.

(** X11.  When search, info or chromosomes is not okay, __init__ raises the
    RuntimeError of that call with the server's message, right after the
    failing call: no later call is made. *)
Theorem init_remote_errors sample0 url0 key srv :
  (forall msg,
      Rpc.search srv sample0 "experiments" key = NotOkay msg ->
      init sample0 url0 key srv
      = ([Call "search"], Raises (RuntimeError (SearchFailed msg))))
  /\ (forall resps eid name,
        Rpc.search srv sample0 "experiments" key = Okay resps ->
        List.find (fun resp => String.eqb resp.2 sample0) resps = Some (eid, name) ->
        eid <> "" ->
        (forall msg,
            Rpc.info srv (Some eid) key 0 = NotOkay msg ->
            init sample0 url0 key srv
            = ([Call "search"; Call "info"], Raises (RuntimeError (InfoFailed msg))))
        /\ (forall resp0 l g msg,
              Rpc.info srv (Some eid) key 0 = Okay (resp0 :: l) ->
              resp0 !! "genome" = Some g -> g <> "" ->
              Rpc.chromosomes srv (Some g) key = NotOkay msg ->
              init sample0 url0 key srv
              = ([Call "search"; Call "info"; Call "chromosomes"],
                 Raises (RuntimeError (ChromosomesFailed msg))))).
Proof.
  split; [intros msg Hsearch; apply init_search_failed, Hsearch |].
  intros resps eid name Hsearch Hfind Heid.
  rewrite (init_after_search sample0 url0 key srv resps eid name Hsearch Hfind Heid).
  split.
  - intros msg ->. reflexivity.
  - intros resp0 l g msg -> -> Hg ->.
    destruct (String.eqb_spec g ""); [contradiction | reflexivity].
Qed.

(** X12.  Once the experiment is found: an empty info list raises
    IndexError; an info without a genome, or with an empty one, raises the
    RuntimeError about the genome before chromosomes is ever called; an empty
    chromosome list raises the RuntimeError about chromosome names/sizes. *)
Theorem init_metadata_errors sample0 url0 key srv resps eid name :
  Rpc.search srv sample0 "experiments" key = Okay resps ->
  List.find (fun resp => String.eqb resp.2 sample0) resps = Some (eid, name) ->
  eid <> "" ->
  (Rpc.info srv (Some eid) key 0 = Okay [] ->
   init sample0 url0 key srv = ([Call "search"; Call "info"], Raises IndexError))
  /\ (forall resp0 l,
        Rpc.info srv (Some eid) key 0 = Okay (resp0 :: l) ->
        truthy (resp0 !! "genome") = false ->
        init sample0 url0 key srv
        = ([Call "search"; Call "info"], Raises (RuntimeError (NoGenome sample0))))
  /\ (forall resp0 l g,
        Rpc.info srv (Some eid) key 0 = Okay (resp0 :: l) ->
        resp0 !! "genome" = Some g -> g <> "" ->
        Rpc.chromosomes srv (Some g) key = Okay [] ->
        init sample0 url0 key srv
        = ([Call "search"; Call "info"; Call "chromosomes"],
           Raises (RuntimeError (NoChroms sample0)))).
Proof.
  intros Hsearch Hfind Heid.
  rewrite (init_after_search sample0 url0 key srv resps eid name Hsearch Hfind Heid).
  split; [intros ->; reflexivity |]. split.
  - intros resp0 l -> Hg. destruct (resp0 !! "genome") as [g |]; [| reflexivity].
    cbn in Hg. destruct (String.eqb g ""); [reflexivity | discriminate].
  - intros resp0 l g -> -> Hg ->.
    destruct (String.eqb_spec g ""); [contradiction | reflexivity].
Qed.

(** ** chroms and chromsTuple *)

Lemma dict_of_snoc resp k v : dict_of (resp ++ [(k, v)]) = <[k := v]> (dict_of resp).
Proof. unfold dict_of. rewrite foldl_snoc. reflexivity. Qed.

Lemma dict_of_lookup_None resp c : dict_of resp !! c = None <-> c ∉ resp.*1.
Proof.
  induction resp as [| [k v] resp IH] using rev_ind.
  - cbn. rewrite lookup_empty. split; [intros _ Hin; inversion Hin | reflexivity].
  - rewrite dict_of_snoc, fmap_app, lookup_insert_None, IH. cbn.
    rewrite not_elem_of_app, list_elem_of_singleton. split.
    + intros [? ?]. split; [assumption | congruence].
    + intros [? ?]. split; [assumption | congruence].
Qed.

Lemma dict_of_lookup_last resp1 k v resp2 :
  k ∉ resp2.*1 -> dict_of (resp1 ++ (k, v) :: resp2) !! k = Some v.
Proof.
  induction resp2 as [| [k' v'] resp2 IH] using rev_ind; intros Hk.
  - rewrite dict_of_snoc. apply lookup_insert_eq.
  - rewrite fmap_app, not_elem_of_app in Hk. destruct Hk as [Hk Hk'].
    cbn in Hk'. rewrite list_elem_of_singleton in Hk'.
    rewrite app_comm_cons, app_assoc, dict_of_snoc.
    rewrite lookup_insert_ne by congruence. apply IH, Hk.
Qed.

(** X13.  On an opened session chroms and chromsTuple agree: chroms(c) is
    None exactly for the names that do not occur in chromsTuple, and for a
    name that occurs it is the length of its last pair in chromsTuple. *)
Theorem chroms_agrees_with_chromsTuple sample0 url0 key srv tr self :
  init sample0 url0 key srv = (tr, Returns self) ->
  exists resp,
    chromsTuple self = Some resp
    /\ (forall c, chroms self (Some c) = Returns PyNone <-> c ∉ resp.*1)
    /\ (forall resp1 k v resp2,
          resp = resp1 ++ (k, v) :: resp2 -> k ∉ resp2.*1 ->
          chroms self (Some k) = Returns (Length v)).
Proof.
  intros Hinit.
  destruct (init_returns_inv _ _ _ _ _ _ Hinit)
    as (resps & eid & name & resp0 & l & g & resp & _ & _ & _ & _ & _ & _ & _ & _ & _ & ->).
  exists resp. split; [reflexivity |]. unfold chroms. cbn [chromsDict]. split.
  - intros c. rewrite <- dict_of_lookup_None.
    destruct (dict_of resp !! c); split; congruence.
  - intros resp1 k v resp2 -> Hk. rewrite (dict_of_lookup_last resp1 k v resp2 Hk).
    reflexivity.
Qed.

(** ** The arguments of a query: theorems *)

(** X14.  For a chromosome that is not in chromsDict, intervals, values
    and stats all raise the same RuntimeError ("not a valid chromosome")
    before any call to the server. *)
Theorem query_invalid_chromosome fuel self d chrom start end_ :
  chromsDict self = Some d -> d !! chrom = None ->
  intervals fuel self chrom start end_ = ([], Raises (RuntimeError (InvalidChrom chrom)))
  /\ values fuel self chrom start end_ = ([], Raises (RuntimeError (InvalidChrom chrom)))
  /\ stats fuel self chrom start end_ = ([], Raises (RuntimeError (InvalidChrom chrom))).
Proof.
  intros Hd Hc.
  assert (Hcheck : check_region self chrom start end_
                   = Raises (RuntimeError (InvalidChrom chrom))).
  { unfold check_region, chroms. rewrite Hd, Hc. reflexivity. }
  assert (Hint : intervals fuel self chrom start end_
                 = ([], Raises (RuntimeError (InvalidChrom chrom)))).
  { unfold intervals. rewrite Hcheck. reflexivity. }
  split; [exact Hint |]. split.
  - unfold values. rewrite Hcheck. reflexivity.
  - unfold stats. rewrite Hint. reflexivity.
Qed.

(** X15.  When start is not less than the end in use (the end given, or the
    chromosome length when the end given is 0), intervals, values and stats
    raise the same RuntimeError, naming that start and end, before any call
    to the server. *)
Theorem query_empty_window fuel self d chrom len start end_ :
  chromsDict self = Some d -> d !! chrom = Some len ->
  (if end_ =? 0 then len else end_) <= start ->
  let e := RuntimeError (StartNotLess start (if end_ =? 0 then len else end_)) in
  intervals fuel self chrom start end_ = ([], Raises e)
  /\ values fuel self chrom start end_ = ([], Raises e)
  /\ stats fuel self chrom start end_ = ([], Raises e).
Proof.
  intros Hd Hc Hle e.
  assert (Hcheck : check_region self chrom start end_ = Raises e).
  { unfold check_region, chroms. rewrite Hd, Hc.
    destruct (Z.geb_spec start (if end_ =? 0 then len else end_)); [reflexivity | lia]. }
  assert (Hint : intervals fuel self chrom start end_ = ([], Raises e)).
  { unfold intervals. rewrite Hcheck. reflexivity. }
  split; [exact Hint |]. split.
  - unfold values. rewrite Hcheck. reflexivity.
  - unfold stats. rewrite Hint. reflexivity.
Qed.

Lemma check_region_default_end self d chrom len start :
  chromsDict self = Some d -> d !! chrom = Some len ->
  check_region self chrom start 0 = check_region self chrom start len.
Proof.
  intros Hd Hc. unfold check_region, chroms. rewrite Hd, Hc.
  rewrite Z.eqb_refl. destruct (len =? 0); reflexivity.
Qed.

(** X16.  For intervals and values, an end of 0 stands for the length of
    the chromosome: the call does exactly what the call with that length as
    its end does. *)
Theorem query_default_end fuel self d chrom len start :
  chromsDict self = Some d -> d !! chrom = Some len ->
  intervals fuel self chrom start 0 = intervals fuel self chrom start len
  /\ values fuel self chrom start 0 = values fuel self chrom start len.
Proof.
  intros Hd Hc. unfold values, intervals.
  rewrite (check_region_default_end self d chrom len start Hd Hc). split; reflexivity.
Qed.

(** ** The wait for the server: theorems *)

Lemma wait_while_never_ends self reqID : forall fuel n st0,
  is_terminal st0 = false ->
  (forall j, exists s, polled self reqID j = Some s /\ is_terminal s = false) ->
  wait_while fuel self reqID n st0
  = (concat (replicate fuel [Sleep 100; Call "info"]), OutOfFuel).
Proof.
  induction fuel as [| fuel IH]; intros n st0 Hst0 Hnever; cbn [wait_while];
    rewrite Hst0; [reflexivity |].
  destruct (Hnever n) as (s & Hs & Hnt).
  rewrite (poll_polled _ _ _ _ Hs). cbn [mbind M_bind bind emit].
  rewrite (IH (S n) s Hnt Hnever). reflexivity.
Qed.

(** X17.  The wait of intervals has no deadline: if the server never
    reports "done" or "failed" for the request, intervals never returns; it
    polls and sleeps 0.1 s again for as many iterations as it is given. *)
Theorem intervals_never_returns fuel self chrom start end0 end_ q reqID :
  check_region self chrom start end0 = Returns end_ ->
  Rpc.select_experiments (server self) (sample self) (Some chrom) (Some start)
    (Some end_) (userKey self) = Okay (Some q) ->
  q <> "" ->
  Rpc.get_regions (server self) q "START,END,VALUE" (userKey self) = Okay reqID ->
  (forall j, exists s, polled self reqID j = Some s /\ is_terminal s = false) ->
  intervals fuel self chrom start end0
  = ([Call "select_experiments"; Call "get_regions"] ++ wait_trace fuel, OutOfFuel)
  /\ List.filter is_sleep (wait_trace fuel) = replicate fuel (Sleep 100).
Proof.
  intros Hcheck Hselect Hq Hregions Hnever. split.
  - unfold intervals. rewrite Hcheck. cbn [lift mbind M_bind bind emit].
    rewrite Hselect. unfold truthy.
    destruct (String.eqb_spec q ""); [contradiction |]. cbn [negb default id].
    rewrite Hregions. cbn [mbind M_bind bind].
    unfold wait. destruct (Hnever 0%nat) as (s0 & Hs0 & Hnt).
    rewrite (poll_polled _ _ _ _ Hs0). cbn [mbind M_bind bind].
    rewrite (wait_while_never_ends self reqID fuel 1%nat s0 Hnt Hnever).
    reflexivity.
  - unfold wait_trace. induction fuel as [| fuel IH]; [reflexivity |].
    cbn in *. f_equal. exact IH.
Qed.

(** A poll does one [info] call, whatever comes of it. *)
Lemma poll_trace self reqID n : (poll self reqID n).1 = [Call "info"].
Proof.
  unfold poll. cbn [mbind M_bind bind emit].
  destruct (Rpc.info (server self) (Some reqID) (userKey self) n) as [[| d l] | msg];
    [reflexivity | destruct (d !! "state"); reflexivity
    | destruct (String.eqb msg ""); reflexivity].
Qed.

(** The loop passes on what a poll raises, after one sleep per poll. *)
Lemma wait_while_raises self reqID r : forall k fuel n st0,
  is_terminal st0 = false ->
  (forall j, (j < k)%nat ->
     exists s, polled self reqID (n + j) = Some s /\ is_terminal s = false) ->
  (poll self reqID (n + k)).2 = Raises r ->
  (k < fuel)%nat ->
  wait_while fuel self reqID n st0
  = (concat (replicate (S k) [Sleep 100; Call "info"]), Raises r).
Proof.
  induction k as [| k IH]; intros fuel n st0 Hst0 Hbefore Hk Hfuel;
    (destruct fuel as [| fuel]; [lia |]); cbn [wait_while]; rewrite Hst0.
  - rewrite Nat.add_0_r in Hk. pose proof (poll_trace self reqID n) as Htr.
    destruct (poll self reqID n) as [tr o]. cbn in Hk, Htr. subst tr o. reflexivity.
  - destruct (Hbefore 0%nat ltac:(lia)) as (s0 & Hs0 & Hnt).
    rewrite Nat.add_0_r in Hs0. rewrite (poll_polled _ _ _ _ Hs0).
    cbn [mbind M_bind bind emit].
    rewrite (IH fuel (S n) s0 Hnt); [reflexivity | | | lia].
    + intros j Hj. destruct (Hbefore (S j) ltac:(lia)) as (s & Hs & Hs').
      exists s. split; [| assumption]. rewrite <- Hs. f_equal. lia.
    + rewrite <- Hk. do 2 f_equal. lia.
Qed.

Lemma wait_raises self reqID r k fuel :
  (forall j, (j < k)%nat ->
     exists s, polled self reqID j = Some s /\ is_terminal s = false) ->
  (poll self reqID k).2 = Raises r ->
  (k <= fuel)%nat ->
  wait fuel self reqID = (wait_trace k, Raises r).
Proof.
  intros Hbefore Hk Hfuel. unfold wait, wait_trace.
  destruct k as [| k].
  - pose proof (poll_trace self reqID 0) as Htr.
    destruct (poll self reqID 0) as [tr o]. cbn in Hk, Htr. subst tr o. reflexivity.
  - destruct (Hbefore 0%nat ltac:(lia)) as (s0 & Hs0 & Hnt).
    rewrite (poll_polled _ _ _ _ Hs0). cbn [mbind M_bind bind].
    rewrite (wait_while_raises self reqID r k fuel 1%nat s0 Hnt);
      [reflexivity | | assumption | lia].
    intros j Hj. apply (Hbefore (S j)). lia.
Qed.

(** X18.  The status of the info calls of the wait is never looked at: at
    whichever poll it comes, the first one or one after any number of sleeps,
    an answer that is not okay makes intervals raise TypeError (IndexError
    when its message is empty), an empty info list IndexError, and an info
    without a "state" KeyError, right after that poll; none of them is a
    RuntimeError with the server's message. *)
Theorem intervals_malformed_poll fuel self chrom start end0 end_ q reqID k :
  check_region self chrom start end0 = Returns end_ ->
  Rpc.select_experiments (server self) (sample self) (Some chrom) (Some start)
    (Some end_) (userKey self) = Okay (Some q) ->
  q <> "" ->
  Rpc.get_regions (server self) q "START,END,VALUE" (userKey self) = Okay reqID ->
  (forall j, (j < k)%nat ->
     exists s, polled self reqID j = Some s /\ is_terminal s = false) ->
  (k <= fuel)%nat ->
  let tr := [Call "select_experiments"; Call "get_regions"] ++ wait_trace k in
  (forall msg,
      Rpc.info (server self) (Some reqID) (userKey self) k = NotOkay msg ->
      intervals fuel self chrom start end0
      = (tr, Raises (if String.eqb msg "" then IndexError else TypeError)))
  /\ (Rpc.info (server self) (Some reqID) (userKey self) k = Okay [] ->
      intervals fuel self chrom start end0 = (tr, Raises IndexError))
  /\ (forall d l,
        Rpc.info (server self) (Some reqID) (userKey self) k = Okay (d :: l) ->
        d !! "state" = None ->
        intervals fuel self chrom start end0 = (tr, Raises (KeyError "state"))).
Proof.
  intros Hcheck Hselect Hq Hregions Hbefore Hfuel tr. subst tr.
  assert (Hrun : forall r,
    (poll self reqID k).2 = Raises r ->
    intervals fuel self chrom start end0
    = ([Call "select_experiments"; Call "get_regions"] ++ wait_trace k, Raises r)).
  { intros r Hpoll. unfold intervals. rewrite Hcheck.
    cbn [lift mbind M_bind bind emit].
    rewrite Hselect. unfold truthy.
    destruct (String.eqb_spec q ""); [contradiction |]. cbn [negb default id].
    rewrite Hregions. cbn [mbind M_bind bind].
    rewrite (wait_raises self reqID r k fuel Hbefore Hpoll Hfuel). reflexivity. }
  split; [| split].
  - intros msg Hinfo. apply Hrun. unfold poll. cbn. rewrite Hinfo.
    destruct (String.eqb msg ""); reflexivity.
  - intros Hinfo. apply Hrun. unfold poll. cbn. rewrite Hinfo. reflexivity.
  - intros d l Hinfo Hstate. apply Hrun. unfold poll. cbn. rewrite Hinfo, Hstate.
    reflexivity.
Qed.

(** X19.  In intervals, a select_experiments that is not okay or gives no
    query ID, and a get_regions that is not okay, each raise their own
    RuntimeError (with the server's message when there is one) right after
    the failing call: nothing is polled or fetched. *)
Theorem intervals_remote_errors fuel self chrom start end0 end_ :
  check_region self chrom start end0 = Returns end_ ->
  (forall msg,
      Rpc.select_experiments (server self) (sample self) (Some chrom) (Some start)
        (Some end_) (userKey self) = NotOkay msg ->
      intervals fuel self chrom start end0
      = ([Call "select_experiments"], Raises (RuntimeError (SelectFailed msg))))
  /\ (forall queryID,
        Rpc.select_experiments (server self) (sample self) (Some chrom) (Some start)
          (Some end_) (userKey self) = Okay queryID ->
        truthy queryID = false ->
        intervals fuel self chrom start end0
        = ([Call "select_experiments"], Raises (RuntimeError NoQueryID)))
  /\ (forall q msg,
        Rpc.select_experiments (server self) (sample self) (Some chrom) (Some start)
          (Some end_) (userKey self) = Okay (Some q) ->
        q <> "" ->
        Rpc.get_regions (server self) q "START,END,VALUE" (userKey self) = NotOkay msg ->
        intervals fuel self chrom start end0
        = ([Call "select_experiments"; Call "get_regions"],
           Raises (RuntimeError (GetRegionsFailed msg)))).
Proof.
  intros Hcheck. unfold intervals. rewrite Hcheck. cbn [lift mbind M_bind bind emit].
  split; [| split].
  - intros msg ->. reflexivity.
  - intros queryID -> ->. reflexivity.
  - intros q msg -> Hq. unfold truthy.
    destruct (String.eqb_spec q ""); [contradiction |]. cbn [negb default id].
    intros ->. reflexivity.
Qed.

(** ** The payload of a retrieval: theorems *)

Lemma split_free sep s : free_of sep s = true -> split sep s = [s].
Proof.
  induction s as [| c s IH]; [reflexivity |]. cbn [free_of split].
  destruct (Ascii.eqb c sep); [discriminate |]. cbn [negb andb].
  intros Hs. rewrite (IH Hs). reflexivity.
Qed.

Lemma split_append sep s1 s2 :
  free_of sep s1 = true -> split sep (s1 +:+ String sep s2) = s1 :: split sep s2.
Proof.
  induction s1 as [| c s1 IH].
  - intros _. rewrite append_nil_l. cbn [split]. rewrite Ascii.eqb_refl. reflexivity.
  - cbn [free_of]. rewrite append_cons. cbn [split].
    destruct (Ascii.eqb c sep); [discriminate |]. cbn [negb andb].
    intros Hs. rewrite (IH Hs). reflexivity.
Qed.

Lemma free_of_append sep s1 s2 :
  free_of sep (s1 +:+ s2) = free_of sep s1 && free_of sep s2.
Proof.
  induction s1 as [| c s1 IH]; [reflexivity |].
  rewrite append_cons. cbn [free_of]. rewrite IH, andb_assoc. reflexivity.
Qed.

Lemma split_record_of a b v :
  is_field a -> is_field b -> is_field v ->
  split tab (record_of (a, b, v)) = [a; b; v]
  /\ free_of newline (record_of (a, b, v)) = true.
Proof.
  intros [Ha Ha'] [Hb Hb'] [Hv Hv']. unfold record_of. cbn [fst snd]. split.
  - rewrite (split_append tab a _ Ha), (split_append tab b _ Hb), (split_free tab v Hv).
    reflexivity.
  - rewrite free_of_append. cbn [free_of]. rewrite free_of_append. cbn [free_of].
    rewrite Ha', Hb', Hv'. reflexivity.
Qed.

Lemma parse_intervals_payload_from rows : forall o,
  Forall reads rows ->
  parse_intervals (split newline (payload_of rows.*1)) o = Returns (o ++ rows.*2).
Proof.
  induction rows as [| [[[a b] v] [[x y] z]] rows IH]; intros o Hrows.
  - cbn. rewrite app_nil_r. reflexivity.
  - apply Forall_cons in Hrows as [(Ha & Hfa & Hfb & Hfv & Hx & Hy & Hz) Hrows].
    destruct (split_record_of a b v Hfa Hfb Hfv) as [Hsplit Hfree].
    cbn [fmap list_fmap fst snd payload_of foldr].
    rewrite (split_append newline _ _ Hfree). cbn [parse_intervals].
    rewrite Hsplit. destruct (String.eqb_spec a ""); [contradiction |].
    rewrite Hx, Hy, Hz. fold (payload_of rows.*1).
    rewrite (IH _ Hrows), <- app_assoc. reflexivity.
Qed.

(** X20.  A payload of tab-separated records, each followed by a newline,
    whose fields int and float can read, is parsed into one (start, end,
    value) tuple per record, in the order of the payload; the trailing
    newline adds nothing. *)
Theorem parse_intervals_payload rows :
  Forall reads rows ->
  parse_intervals (split newline (payload_of rows.*1)) [] = Returns rows.*2.
Proof. intros Hrows. apply (parse_intervals_payload_from rows [] Hrows). Qed.

(** X21.  A record that is empty, or that starts with a tab, is skipped
    wherever it stands in the payload, not only at its end: the records
    before and after it are parsed as if it were not there. *)
Theorem parse_intervals_skips_blank records1 record records2 o :
  record = "" \/ (exists rest, record = String tab rest) ->
  parse_intervals (records1 ++ record :: records2) o
  = match parse_intervals records1 o with
    | Returns o' => parse_intervals records2 o'
    | Raises x => Raises x
    | OutOfFuel => OutOfFuel
    end.
Proof.
  intros Hrecord. revert o.
  induction records1 as [| r records1 IH]; intros o; cbn [app parse_intervals].
  - destruct Hrecord as [-> | [rest ->]]; [reflexivity |].
    cbn [split]. rewrite Ascii.eqb_refl. reflexivity.
  - destruct (split tab r) as [| f0 fs]; [reflexivity |].
    destruct (String.eqb f0 ""); [apply IH |].
    destruct (py_int f0); [| reflexivity].
    destruct fs as [| f1 fs]; [reflexivity |].
    destruct (py_int f1); [| reflexivity].
    destruct fs as [| f2 fs]; [reflexivity |].
    destruct (py_float f2); [apply IH | reflexivity].
Qed.

(** ** stats: the weights *)

(** X22.  For coordinates that are not negative, the weight stats gives an
    interval is the length of the interval clipped to the window, where a
    start or end of 0 does not clip; an interval that overlaps the window has
    a positive weight. *)
Theorem stats_weight_clipped start end_ s e (v : float) :
  0 <= start -> 0 <= s ->
  stats_weight start end_ (s, e, v)
  = (if end_ >? 0 then Z.min e end_ else e) - Z.max s start
  /\ (s < e -> start < e -> (0 < end_ -> s < end_ /\ start < end_) ->
      0 < stats_weight start end_ (s, e, v)).
Proof.
  intros Hstart Hs. unfold stats_weight. cbn [fst snd].
  destruct (Z.gtb_spec start 0); destruct (Z.ltb_spec s start);
    destruct (Z.gtb_spec end_ 0); destruct (Z.gtb_spec e end_); cbn [andb];
    split; lia.
Qed.

(** ** preload: more theorems *)

(** X24.  From the upload on, preload never adds an entry to a writer that
    is not open or has no header: every addEntries event of a run comes after
    the open and the addHeader, which are the third and fourth events. *)
Theorem preload_send_header_first fuel self regionsStr i chrom s e v :
  (preload_send fuel self regionsStr).1 !! i = Some (BwAddEntries chrom s e v) ->
  (3 < i)%nat
  /\ (preload_send fuel self regionsStr).1 !! 2%nat = Some (BwOpen tmpname)
  /\ (preload_send fuel self regionsStr).1 !! 3%nat
     = Some (BwAddHeader (chromsTuple self)).
Proof.
  destruct (preload_send_shape fuel self regionsStr)
    as [(msg & _ & ->) | (regionsID & tr & _ & _ & [(r & -> & _) | ->])];
    cbn [fst].
  - destruct i as [| i]; [discriminate | destruct i; discriminate].
  - intros Hi. split; [| split; reflexivity].
    destruct i as [| [| [| [| i]]]]; try discriminate. lia.
  - intros Hi. split; [| split; reflexivity].
    destruct i as [| [| [| [| i]]]]; try discriminate. lia.
Qed.

(** The block of preload that starts at the upload, taken by itself: the
    messages for a refused upload and a refused intersection are formatted
    from names that are not bound there ([resp], [intersectionID]), so in the
    block these two failures come out as UnboundLocalError and NameError,
    without the server's message.  No run of [preload] itself gets there (see
    [preload_raises_AttributeError]). *)
Theorem preload_send_unbound_names fuel self regionsStr :
  (forall msg,
      Rpc.input_regions (server self) (genome self) regionsStr (userKey self)
      = NotOkay msg ->
      preload_send fuel self regionsStr
      = ([Call "input_regions"], Raises (UnboundLocalError "resp")))
  /\ (forall regionsID q msg,
        Rpc.input_regions (server self) (genome self) regionsStr (userKey self)
        = Okay regionsID ->
        Rpc.select_experiments (server self) (sample self) None None None
          (userKey self) = Okay (Some q) ->
        q <> "" ->
        Rpc.intersection (server self) q regionsID (userKey self) = NotOkay msg ->
        preload_send fuel self regionsStr
        = ([Call "input_regions"; TempFile tmpname; BwOpen tmpname;
            BwAddHeader (chromsTuple self); Call "select_experiments";
            Call "intersection"],
           Raises (NameError "intersectionID"))).
Proof.
  unfold preload_send. split.
  - intros msg ->. reflexivity.
  - intros regionsID q msg -> -> Hq. cbn [mbind M_bind bind emit]. unfold truthy.
    destruct (String.eqb_spec q ""); [contradiction |]. cbn [negb default id].
    intros ->. reflexivity.
Qed.

(** X23.  As it is written, preload never gets as far as the server or the
    writer: for every session and every list of regions it raises
    AttributeError at the loop over [self.chromsTuple.items()], a list having
    no [items], with nothing sent, created or opened. *)
Theorem preload_never_reaches_server fuel self regions :
  (preload fuel self regions).1 = []
  /\ (preload fuel self regions).2 = Raises AttributeError.
Proof. rewrite preload_raises_AttributeError. split; reflexivity. Qed.

End DeepBlue.

(** C5 (the claim as stated fails).  On the empty sequence mergeRegions
    returns a dict, with the one key [None] holding [[None, None]]; it raises
    nothing. *)
Lemma mergeRegions_empty_returns :
  mergeRegions [] = Returns {[ None := [(None, None)] ]}
  /\ ~ (exists e, mergeRegions [] = Raises e /\ kind_of e = Some InvalidArgument).
Proof.
  split; [vm_compute; reflexivity |].
  intros (e & He & _). vm_compute in He. discriminate.
Qed.

(** ** The theorems on concrete runs *)

(** C4 (the claim as stated fails).  With two experiments named like the
    sample, opening the session succeeds, on the first of them. *)
Lemma init_ambiguous_opens :
  length (List.filter (fun resp => String.eqb resp.2 "S") [("e1", "S"); ("e2", "S")]) = 2%nat
  /\ Rpc.search ambiguous_server "S" "experiments" "key" = Okay [("e1", "S"); ("e2", "S")]
  /\ exists self,
       init "S" "http://localhost" "key" ambiguous_server
       = ([Call "search"; Call "info"; Call "chromosomes"], Returns self)
       /\ experimentID self = Some "e1".
Proof.
  split; [reflexivity |]. split; [reflexivity |].
  eexists. split; reflexivity.
Qed.

(** C4, on a server that has no experiment of the sample's name. *)
Lemma init_NotFound_iff_witness :
  Rpc.search unknown_server "S" "experiments" "key" = Okay [("e7", "T")]
  /\ ((exists e, (init "S" "http://localhost" "key" unknown_server).2 = Raises e
                 /\ kind_of e = Some NotFound)
      <-> truthy None = false).
Proof.
  split; [reflexivity |].
  exact (proj1 (init_NotFound_iff "S" "http://localhost" "key" unknown_server
                  [("e7", "T")] eq_refl)).
Defined.

(** C7, on the window [0,100) and the single interval (10,20,5.0). *)
Lemma values_dense_last_write_wins_witness :
  0 < 100
  /\ length (values_fill [(10, 20, 5%float)] 0 100) = 100%nat
  /\ (forall i, 0 <= i < 100 - 0 ->
        values_fill [(10, 20, 5%float)] 0 100 !! Z.to_nat i
        = Some (default nan (last_cover [(10, 20, 5%float)] 0 100 (0 + i)))).
Proof.
  split; [reflexivity |].
  pose proof (values_dense_last_write_wins demo_int demo_float
                [(10, 20, 5%float)] 0 100 eq_refl) as H.
  split; [exact (proj1 (proj2 H)) | exact (proj1 (proj2 (proj2 H)))].
Defined.

(** C8 (the claim as stated fails).  The polled state is "failed", and
    intervals returns the data the server sends for the request. *)
Lemma intervals_failed_returns_data :
  polled (demo_session failed_with_data_server) "r1" 0 = Some "failed"
  /\ intervals demo_int demo_float 0 (demo_session failed_with_data_server) "chr1" 0 100
     = ([Call "select_experiments"; Call "get_regions"; Call "info";
         Call "get_request_data"],
        Returns [(10, 20, 5%float)]).
Proof. split; vm_compute; reflexivity. Qed.

(** C8, on a request that is running for two polls and then failed, with a
    server that refuses to serve its data. *)
Lemma intervals_polls_then_fetches_witness :
  check_region (demo_session slow_failed_server) "chr1" 0 100 = Returns 100
  /\ polled (demo_session slow_failed_server) "r1" 2 = Some "failed"
  /\ intervals demo_int demo_float 2 (demo_session slow_failed_server) "chr1" 0 100
     = ([Call "select_experiments"; Call "get_regions"; Call "info";
         Sleep 100; Call "info"; Sleep 100; Call "info"; Call "get_request_data"],
        Raises (RuntimeError (GetDataFailed "request failed"))).
Proof.
  split; [reflexivity |]. split; [reflexivity |].
  refine (proj1 (intervals_polls_then_fetches demo_int demo_float 2
                   (demo_session slow_failed_server) "chr1" 0 100 100 "q1" "r1" 2 "failed"
                   eq_refl eq_refl _ eq_refl _ eq_refl eq_refl (le_n 2))).
  - discriminate.
  - intros j Hj. exists "running". split; [| reflexivity].
    destruct j as [| [| j]]; [reflexivity | reflexivity | lia].
Defined.

(** The block of preload that starts at the upload, on a server that refuses
    the selection: the block raises after the writer was opened and never
    closes it. *)
Lemma preload_send_leaves_writer_open :
  preload_send demo_int demo_float "/tmp/tmpfile" 0 (demo_session select_fails_server) "chr1 0 100 "
  = ([Call "input_regions"; TempFile "/tmp/tmpfile"; BwOpen "/tmp/tmpfile";
      BwAddHeader (Some [("chr1", 1000)]); Call "select_experiments"],
     Raises (RuntimeError (SelectFailed "boom")))
  /\ writer_open [Call "input_regions"; TempFile "/tmp/tmpfile"; BwOpen "/tmp/tmpfile";
                  BwAddHeader (Some [("chr1", 1000)]); Call "select_experiments"] false
     = true.
Proof. split; reflexivity. Qed.

(** The success path of the same block: the writer is opened, given the
    header and the entry, and closed. *)
Lemma preload_send_success_example :
  preload_send demo_int demo_float "/tmp/tmpfile" 0 (demo_session serving_server) "chr1 0 100 "
  = ([Call "input_regions"; TempFile "/tmp/tmpfile"; BwOpen "/tmp/tmpfile";
      BwAddHeader (Some [("chr1", 1000)]); Call "select_experiments";
      Call "intersection"; Call "get_regions"; Call "info"; Call "get_request_data";
      BwAddEntries "chr1" 10 20 5%float; BwClose],
     Returns "/tmp/tmpfile").
Proof. vm_compute. reflexivity. Qed.

(** C10, on the session opened on a server with the one chromosome chr1. *)
Lemma chroms_never_raises_witness :
  exists tr self,
    init "S" "http://localhost" "key" serving_server = (tr, Returns self)
    /\ exists d,
         chromsDict self = Some d
         /\ chroms self None = Returns (Dict (Some d))
         /\ (forall c n, d !! c = Some n -> chroms self (Some c) = Returns (Length n))
         /\ (forall c, d !! c = None -> chroms self (Some c) = Returns PyNone).
Proof.
  eexists _, _. split; [reflexivity |].
  eapply (chroms_never_raises "S" "http://localhost" "key" serving_server).
  reflexivity.
Defined.

(** The run of C6 with an average that returns the single value it is given:
    stats returns the list holding nan, where None is expected. *)
Lemma stats_all_nan_example :
  demo_float "nan" = Some nan
  /\ stats_of demo_average [(0, 10, nan)] 0 0 = Returns (Some [nan]).
Proof. split; reflexivity. Qed.

(** ** More theorems on concrete runs *)

(** X5, on the two tiles of a chromosome of length 2500. *)
Lemma makeTiles_tiles_in_bounds_witness :
  makeTiles 3 [("chr1", 2500)] 1000 0
  = Returns [("chr1", 0, 1000); ("chr1", 1000, 2000)]
  /\ forall k s e, (k, s, e) ∈ [("chr1", 0, 1000); ("chr1", 1000, 2000)] ->
       exists v, (k, v) ∈ [("chr1", 2500)] /\ 0 <= s <= e /\ e <= v /\ e - s <= 1000.
Proof.
  split; [reflexivity |].
  apply (makeTiles_tiles_in_bounds 3 [("chr1", 2500)] 1000 0); [lia | lia | reflexivity].
Defined.

(** X6, on the same run. *)
Lemma makeTiles_tiles_disjoint_witness :
  makeTiles 3 [("chr1", 2500)] 1000 0
  = Returns [("chr1", 0, 1000); ("chr1", 1000, 2000)]
  /\ StronglySorted tile_before [("chr1", 0, 1000); ("chr1", 1000, 2000)].
Proof.
  split; [reflexivity |].
  apply (makeTiles_tiles_disjoint 3 "chr1" 2500 1000 0); [lia | lia | reflexivity].
Defined.

(** X7, on a chromosome of length 2500 and 2501 iterations. *)
Lemma makeTiles_terminates_witness :
  0 < 1000 /\ 0 <= 0
  /\ exists tiles, makeTiles 2501 [("chr1", 2500)] 1000 0 = Returns tiles.
Proof.
  split; [reflexivity |]. split; [discriminate |].
  apply (makeTiles_terminates 2501 [("chr1", 2500)] 1000 0); [lia | lia |].
  intros k v Hin. apply list_elem_of_singleton in Hin. injection Hin as -> ->.
  split; [left; discriminate | lia].
Defined.

(** X8, on the one chromosome chrM of length 0. *)
Lemma makeTiles_zero_length_never_returns_witness :
  ("chrM", 0) ∈ [("chrM", 0)]
  /\ makeTiles 5 [("chrM", 0)] 1000 0 = OutOfFuel.
Proof.
  split; [constructor |].
  apply (makeTiles_zero_length_never_returns 5 [("chrM", 0)] "chrM" 1000). constructor.
Defined.

(** X10, on the session opened on a server that has the sample. *)
Lemma init_session_invariants_witness :
  init "S" "http://localhost" "key" serving_server
  = ([Call "search"; Call "info"; Call "chromosomes"], Returns opened_session)
  /\ truthy (experimentID opened_session) = true
  /\ truthy (genome opened_session) = true.
Proof.
  assert (Hinit : init "S" "http://localhost" "key" serving_server
                  = ([Call "search"; Call "info"; Call "chromosomes"],
                     Returns opened_session)) by reflexivity.
  split; [exact Hinit |].
  pose proof (init_session_invariants "S" "http://localhost" "key" serving_server
                [Call "search"; Call "info"; Call "chromosomes"] opened_session
                Hinit) as H.
  split; [exact (proj1 (proj2 (proj2 (proj2 (proj2 H)))))
         | exact (proj1 (proj2 (proj2 (proj2 (proj2 (proj2 H))))))].
Defined.

(** X11, on a server that refuses the search. *)
Lemma init_remote_errors_witness :
  Rpc.search down_server "S" "experiments" "key" = NotOkay "no such user"
  /\ init "S" "http://localhost" "key" down_server
     = ([Call "search"], Raises (RuntimeError (SearchFailed "no such user"))).
Proof.
  split; [reflexivity |].
  exact (proj1 (init_remote_errors "S" "http://localhost" "key" down_server)
           "no such user" eq_refl).
Defined.

(** X12, on a server whose info names no genome. *)
Lemma init_metadata_errors_witness :
  Rpc.search no_genome_server "S" "experiments" "key" = Okay [("e1", "S")]
  /\ Rpc.info no_genome_server (Some "e1") "key" 0 = Okay [ {[ "name" := "S" ]} ]
  /\ init "S" "http://localhost" "key" no_genome_server
     = ([Call "search"; Call "info"], Raises (RuntimeError (NoGenome "S"))).
Proof.
  split; [reflexivity |]. split; [reflexivity |].
  refine (proj1 (proj2 (init_metadata_errors "S" "http://localhost" "key"
                          no_genome_server [("e1", "S")] "e1" "S" eq_refl eq_refl _))
            {[ "name" := "S" ]} [] eq_refl eq_refl).
  discriminate.
Defined.

(** X13, on the session opened on a server with the one chromosome chr1. *)
Lemma chroms_agrees_with_chromsTuple_witness :
  init "S" "http://localhost" "key" serving_server
  = ([Call "search"; Call "info"; Call "chromosomes"], Returns opened_session)
  /\ exists resp,
       chromsTuple opened_session = Some resp
       /\ (forall c, chroms opened_session (Some c) = Returns PyNone <-> c ∉ resp.*1)
       /\ (forall resp1 k v resp2,
             resp = resp1 ++ (k, v) :: resp2 -> k ∉ resp2.*1 ->
             chroms opened_session (Some k) = Returns (Length v)).
Proof.
  assert (Hinit : init "S" "http://localhost" "key" serving_server
                  = ([Call "search"; Call "info"; Call "chromosomes"],
                     Returns opened_session)) by reflexivity.
  split; [exact Hinit |].
  exact (chroms_agrees_with_chromsTuple "S" "http://localhost" "key" serving_server
           [Call "search"; Call "info"; Call "chromosomes"] opened_session Hinit).
Defined.

(** X14, on the chromosome chrX, which the session does not have. *)
Lemma query_invalid_chromosome_witness :
  chromsDict (demo_session serving_server) = Some {[ "chr1" := 1000 ]}
  /\ intervals demo_int demo_float 0 (demo_session serving_server) "chrX" 0 100
     = ([], Raises (RuntimeError (InvalidChrom "chrX"))).
Proof.
  split; [reflexivity |].
  exact (proj1 (query_invalid_chromosome demo_int demo_float demo_average 0
                  (demo_session serving_server) {[ "chr1" := 1000 ]} "chrX" 0 100
                  eq_refl eq_refl)).
Defined.

(** X15, on the window from 500 to 100. *)
Lemma query_empty_window_witness :
  100 <= 500
  /\ values demo_int demo_float 0 (demo_session serving_server) "chr1" 500 100
     = ([], Raises (RuntimeError (StartNotLess 500 100))).
Proof.
  split; [discriminate |].
  refine (proj1 (proj2 (query_empty_window demo_int demo_float demo_average 0
                          (demo_session serving_server) {[ "chr1" := 1000 ]} "chr1"
                          1000 500 100 eq_refl eq_refl _))).
  discriminate.
Defined.

(** X16, on chr1, whose length is 1000. *)
Lemma query_default_end_witness :
  intervals demo_int demo_float 1 (demo_session serving_server) "chr1" 0 0
  = intervals demo_int demo_float 1 (demo_session serving_server) "chr1" 0 1000.
Proof.
  exact (proj1 (query_default_end demo_int demo_float 1 (demo_session serving_server)
                  {[ "chr1" := 1000 ]} "chr1" 1000 0 eq_refl eq_refl)).
Defined.

(** X17, on a request that stays in the running state, with three iterations. *)
Lemma intervals_never_returns_witness :
  (forall j, exists s,
      polled (demo_session stuck_server) "r1" j = Some s /\ is_terminal s = false)
  /\ intervals demo_int demo_float 3 (demo_session stuck_server) "chr1" 0 100
     = ([Call "select_experiments"; Call "get_regions"; Call "info";
         Sleep 100; Call "info"; Sleep 100; Call "info"; Sleep 100; Call "info"],
        OutOfFuel).
Proof.
  assert (Hnever : forall j, exists s,
             polled (demo_session stuck_server) "r1" j = Some s
             /\ is_terminal s = false).
  { intros j. exists "running". split; reflexivity. }
  split; [exact Hnever |].
  refine (proj1 (intervals_never_returns demo_int demo_float 3
                   (demo_session stuck_server) "chr1" 0 100 100 "q1" "r1"
                   eq_refl eq_refl _ eq_refl Hnever)).
  discriminate.
Defined.

(** X18, on a request that is running for two polls and whose third poll the
    server refuses: the refusal comes inside the loop, after two sleeps. *)
Lemma intervals_malformed_poll_witness :
  Rpc.info no_info_server (Some "r1") "key" 2 = NotOkay "unknown request"
  /\ intervals demo_int demo_float 2 (demo_session no_info_server) "chr1" 0 100
     = ([Call "select_experiments"; Call "get_regions"; Call "info";
         Sleep 100; Call "info"; Sleep 100; Call "info"],
        Raises TypeError).
Proof.
  split; [reflexivity |].
  refine (proj1 (intervals_malformed_poll demo_int demo_float 2
                   (demo_session no_info_server) "chr1" 0 100 100 "q1" "r1" 2
                   eq_refl eq_refl _ eq_refl _ (le_n 2)) "unknown request" eq_refl).
  - discriminate.
  - intros j Hj. exists "running". split; [| reflexivity].
    destruct j as [| [| j]]; [reflexivity | reflexivity | lia].
Defined.

(** X19, on a server that refuses the selection. *)
Lemma intervals_remote_errors_witness :
  check_region (demo_session select_fails_server) "chr1" 0 100 = Returns 100
  /\ intervals demo_int demo_float 1 (demo_session select_fails_server) "chr1" 0 100
     = ([Call "select_experiments"], Raises (RuntimeError (SelectFailed "boom"))).
Proof.
  split; [reflexivity |].
  exact (proj1 (intervals_remote_errors demo_int demo_float 1
                  (demo_session select_fails_server) "chr1" 0 100 100 eq_refl)
           "boom" eq_refl).
Defined.

(** X20, on a payload of two records. *)
Lemma parse_intervals_payload_witness :
  Forall (reads demo_int demo_float)
    [("10", "20", "5", (10, 20, 5%float)); ("20", "30", "nan", (20, 30, nan))]
  /\ parse_intervals demo_int demo_float
       (split newline (payload_of [("10", "20", "5"); ("20", "30", "nan")])) []
     = Returns [(10, 20, 5%float); (20, 30, nan)].
Proof.
  assert (Hrows : Forall (reads demo_int demo_float)
            [("10", "20", "5", (10, 20, 5%float)); ("20", "30", "nan", (20, 30, nan))]).
  { repeat constructor; discriminate. }
  split; [exact Hrows |].
  exact (parse_intervals_payload demo_int demo_float _ Hrows).
Defined.

(** X21, on an empty line between two records. *)
Lemma parse_intervals_skips_blank_witness :
  parse_intervals demo_int demo_float
    [record_of ("10", "20", "5"); ""; record_of ("20", "30", "nan")] []
  = Returns [(10, 20, 5%float); (20, 30, nan)].
Proof.
  exact (parse_intervals_skips_blank demo_int demo_float
           [record_of ("10", "20", "5")] "" [record_of ("20", "30", "nan")] []
           (or_introl eq_refl)).
Defined.

(** X22, on the interval (0,10) and the window from 5 to 15. *)
Lemma stats_weight_clipped_witness :
  0 <= 5 /\ 0 <= 0 /\ stats_weight 5 15 (0, 10, nan) = 5.
Proof.
  split; [discriminate |]. split; [discriminate |].
  refine (proj1 (stats_weight_clipped 5 15 0 10 nan _ _)); discriminate.
Defined.

(** X24, on the run that writes one entry: it is the tenth event. *)
Lemma preload_send_header_first_witness :
  (preload_send demo_int demo_float "/tmp/tmpfile" 0 (demo_session serving_server)
     "chr1 0 100 ").1 !! 9%nat
  = Some (BwAddEntries "chr1" 10 20 5%float)
  /\ (3 < 9)%nat.
Proof.
  split; [reflexivity |].
  exact (proj1 (preload_send_header_first demo_int demo_float "/tmp/tmpfile" 0
                  (demo_session serving_server) "chr1 0 100 " 9 "chr1" 10 20 5%float
                  eq_refl)).
Defined.

(** The block after the loop over the chromosomes, on a server that refuses
    the upload. *)
Lemma preload_send_unbound_names_witness :
  Rpc.input_regions upload_fails_server (Some "hg19") "chr1 0 100 " "key"
  = NotOkay "bad regions"
  /\ preload_send demo_int demo_float "/tmp/tmpfile" 0 (demo_session upload_fails_server)
       "chr1 0 100 "
     = ([Call "input_regions"], Raises (UnboundLocalError "resp")).
Proof.
  split; [reflexivity |].
  exact (proj1 (preload_send_unbound_names demo_int demo_float "/tmp/tmpfile" 0
                  (demo_session upload_fails_server) "chr1 0 100 ")
           "bad regions" eq_refl).
Defined.
